(** * The a2 gateway: proxy dispatcher, application routes and access control

    A shallow embedding of the proxy route ([router.all('/:prefix*')]) and
    of the application routes ([routes/applications.js]), with the
    properties of the gateway specification stated over them.

    JavaScript strings are modelled as [string] (a sequence of code units);
    every character the routes inspect ('h', 't', 'p', '/', '?', 'A'..'Z')
    is ASCII.  The asynchronous callbacks of the routes are modelled by the
    ordered list of calls a handler makes on its collaborators (the
    application model, the acl, the logger, the proxy and [next]). *)

From Stdlib Require Import ZArith Ascii String.
From stdpp Require Import base option list gmap strings pretty.

Local Open Scope Z_scope.
Local Open Scope string_scope.

(** ** JavaScript string primitives *)

Module Js.

(** [s.slice(b)] and [s.slice(b, e)]: negative indices count from the
    end, and both ends are clamped to the string. *)
Definition slice (s : string) (b : Z) (e : option Z) : string :=
  let len := Z.of_nat (String.length s) in
  let norm (i : Z) := if (i <? 0)%Z then Z.max (len + i) 0 else Z.min i len in
  let from := norm b in
  let to := match e with Some e => norm e | None => len end in
  String.substring (Z.to_nat from) (Z.to_nat (to - from)) s.

(** A string is truthy when it is present and not empty. *)
Definition truthy (v : option string) : bool :=
  match v with
  | Some s => negb (String.eqb s "")
  | None => false
  end.

Definition toLowerCaseChar (c : ascii) : ascii :=
  let n := N_of_ascii c in
  if ((65 <=? n) && (n <=? 90))%N then ascii_of_N (n + 32) else c.

(** [s.toLowerCase()] on the ASCII letters, which is all an HTTP method
    token contains. *)
Fixpoint toLowerCase (s : string) : string :=
  match s with
  | EmptyString => EmptyString
  | String c s' => String (toLowerCaseChar c) (toLowerCase s')
  end.

End Js.

(** ** The proxy route *)

(** An [Error] object: its message and the [status] property the routes
    set on it ([None] while it is undefined). *)
Record error := Error { message : string; status : option Z }.

Definition set_status (e : error) (code : Z) : error :=
  {| message := message e; status := Some code |}.

(** A document of the application collection. *)
Record application := Application {
  _id : string;
  name : option string;
  prefix : string;
  host : option string;
  timeCreated : string
}.

(** The parts of the request the proxy route reads: [req.params.prefix],
    [req.params[0]], [req.method], [req._parsedUrl.search] and
    [req.user.username]. *)
Record request := Request {
  params_prefix : option string;
  params_0 : string;
  method : string;
  search : option string;
  username : string
}.

(** The collaborators of the proxy route.  Each function gives what the
    collaborator hands to its callback. *)
Record collaborators := Collaborators {
  findByPrefix : string -> error + option application;
  isAllowed : string -> string -> string -> error + bool;
  logger : bool;
  allowedPermissions : string -> string -> string;
  proxy_web : string -> option error
}.

(** The calls a handler makes, in order. *)
Inductive event :=
| FindByPrefix (p : string)
| IsAllowed (userId resource action : string)
| LoggerDebug (msg : string)
| AllowedPermissions (action resource : string)
| ProxyWeb (target : string) (ignorePath changeOrigin : bool)
| Next (err : error).

Module Proxy.

(** Lines 11-17. *)
Definition startsWith (source str : string) : bool :=
  String.eqb (Js.slice source 0 (Some (Z.of_nat (String.length str)))) str.

Definition endsWith (source str : string) : bool :=
  String.eqb (Js.slice source (- Z.of_nat (String.length str)) None) str.

(** Lines 81-87: the two rewrites of [host] before the acl is asked. *)
Definition normalizeHost (host : string) : string :=
  let host := if negb (startsWith host "http") then "http://" ++ host else host in
  if endsWith host "/"
  then Js.slice host 0 (Some (Z.of_nat (String.length host) - 1))
  else host.

(** Lines 113-117: the target handed to [proxy.web]. *)
Definition target (host sub : string) (search : option string) : string :=
  let host := host ++ sub in
  if Js.truthy search then host ++ default "" search else host.

(** [if (req.app.acl.logger) { req.app.acl.logger.debug(msg); }] *)
Definition debug (c : collaborators) (msg : string) : list event :=
  if logger c then [LoggerDebug msg] else [].

(** Lines 132-139: the error for an application without a host. *)
Definition undefinedHost (a : application) (prefix : string) : error :=
  let appName :=
    if negb (Js.truthy (name a)) then prefix
    else default "" (name a) ++ " (" ++ prefix ++ ")" in
  Error ("It seems that the application " ++ appName ++ " has an undefined host.")
        (Some 400).

(** Lines 89-130: the part of the handler that runs once the
    application has a host.  On a denial [allowedPermissions] is asked
    for the snapshot and [next] is called at once; the callback that
    logs the snapshot runs afterwards. *)
Definition authorize (c : collaborators) (req : request)
    (prefix host : string) : list event :=
  let host := normalizeHost host in
  let resource := prefix ++ params_0 req in
  let action := Js.toLowerCase (method req) in
  let userId := username req in
  IsAllowed userId resource action ::
  match isAllowed c userId resource action with
  | inl err => [Next err]
  | inr false =>
      debug c ("Not allowed " ++ action ++ " on " ++ resource
               ++ " by user " ++ userId)
      ++ [AllowedPermissions (Js.toLowerCase (method req)) resource;
          Next (Error "Insufficient permissions to access resource" (Some 403))]
      ++ debug c ("Allowed permissions: "
                  ++ allowedPermissions c (Js.toLowerCase (method req)) resource)
  | inr true =>
      debug c ("Allowed " ++ action ++ " on " ++ resource
               ++ " by user " ++ userId)
      ++ let host := target host (params_0 req) (search req) in
         ProxyWeb host true true ::
         match proxy_web c host with
         | Some err => [Next (set_status err 503)]
         | None => []
         end
  end.

(** [router.all('/:prefix*', authentication.authenticated, ...)], after
    the authentication middleware has set [req.user]. *)
Definition handler (c : collaborators) (req : request) : list event :=
  if Js.truthy (params_prefix req) then
    let prefix := default "" (params_prefix req) in
    FindByPrefix prefix ::
    match findByPrefix c prefix with
    | inl err => [Next err]
    | inr None =>
        [Next (Error ("No application found with the given prefix: " ++ prefix)
                     (Some 400))]
    | inr (Some application) =>
        if Js.truthy (host application)
        then authorize c req prefix (default "" (host application))
        else [Next (undefinedHost application prefix)]
    end
  else [Next (Error "You must provide a valid prefix!" (Some 400))].

(** What a handler passed to [next], to the proxy and to the acl. *)
Definition failures (tr : list event) : list error :=
  omap (fun e => match e with Next err => Some err | _ => None end) tr.

Definition forwarded (tr : list event) : list string :=
  omap (fun e => match e with ProxyWeb t _ _ => Some t | _ => None end) tr.

Definition queries (tr : list event) : list (string * string * string) :=
  omap (fun e => match e with IsAllowed u r a => Some (u, r, a) | _ => None end) tr.

(** The request names the prefix [p] of a registered application [a]
    whose host [h] is defined. *)
Definition resolves (c : collaborators) (req : request)
    (p : string) (a : application) (h : string) : Prop :=
  params_prefix req = Some p /\ p <> ""
  /\ findByPrefix c p = inr (Some a)
  /\ host a = Some h /\ h <> "".

(** The acl's answer to the query of this request. *)
Definition decision (c : collaborators) (req : request) (p : string)
    : error + bool :=
  isAllowed c (username req) (p ++ params_0 req) (Js.toLowerCase (method req)).

End Proxy.

(** ** The application routes *)

(** One element of [req.body.roles], as [acl.allow] takes it. *)
Record allow := Allow { resources : list string; permissions : list string }.
Record roleSpec := RoleSpec { roles : string; allows : list allow }.

(** What a route answers: [res.json(...)] or [next(err)]. *)
Inductive reply (A : Type) :=
| Json (a : A)
| NextErr (err : error).
Arguments Json {A} a.
Arguments NextErr {A} err.

(** [update.$set] and the options of [findOneAndUpdate]. *)
Record updateSet := UpdateSet {
  set_name : option string;
  set_prefix : option string;
  set_host : option string
}.
Record updateOptions := UpdateOptions { new : bool; runValidators : bool }.

(** [req.app.db.model('application')] and [req.app.acl], as far as the
    application routes use them, over the state [DB] of the document store
    and the state [ACL] of the access control lists. *)
Record ApplicationModel (DB : Type) := {
  create : string -> string -> DB -> (error + application) * DB;
  findOneAndUpdate :
    string -> updateSet -> updateOptions -> DB -> (error + option application) * DB
}.
Arguments create {DB} _ _ _ _.
Arguments findOneAndUpdate {DB} _ _ _ _ _.

Record Acl (ACL : Type) := {
  acl_allow : list roleSpec -> ACL -> option error * ACL
}.
Arguments acl_allow {ACL} _ _ _.

Module Applications.

Record postBody := PostBody {
  body_prefix : option string;
  body_host : option string;
  body_roles : option (list roleSpec)
}.

(** The object the post route answers with. *)
Record summary := Summary {
  sum_id : string;
  sum_prefix : string;
  sum_host : option string;
  sum_timeCreated : string
}.

(** Lines 135-142: every resource of every allow of every role gets the
    prefix in front.  The body comes from the JSON parser, so no two
    allows share a [resources] array. *)
Definition prefixResources (prefix : string) (rolesArray : list roleSpec)
    : list roleSpec :=
  (fun role =>
     RoleSpec (roles role)
       ((fun a => Allow ((fun r => prefix ++ r) <$> resources a) (permissions a))
          <$> allows role))
  <$> rolesArray.

Section Routes.
Context {DB ACL : Type} (M : ApplicationModel DB) (A : Acl ACL).

(** The [validate] task. *)
Definition validate (body : postBody) : option error :=
  if negb (Js.truthy (body_prefix body)) then Some (Error "Prefix required!" None)
  else if negb (Js.truthy (body_host body)) then Some (Error "Host required!" None)
  else None.

(** The [roles] task. *)
Definition rolesTask (body : postBody) (acl : ACL) : option error * ACL :=
  match body_roles body with
  | Some rolesArray =>
      acl_allow A (prefixResources (default "" (body_prefix body)) rolesArray) acl
  | None => (None, acl)
  end.

(** [router.post('/')]: validate, then application, then roles; the
    first error goes to [next] with status 400. *)
Definition post (body : postBody) (db : DB) (acl : ACL)
    : reply summary * DB * ACL :=
  match validate body with
  | Some err => (NextErr (set_status err 400), db, acl)
  | None =>
      match create M (default "" (body_prefix body))
                     (default "" (body_host body)) db with
      | (inl err, db) => (NextErr (set_status err 400), db, acl)
      | (inr application, db) =>
          match rolesTask body acl with
          | (Some err, acl) => (NextErr (set_status err 400), db, acl)
          | (None, acl) =>
              (Json (Summary (_id application) (prefix application)
                             (host application) (timeCreated application)),
               db, acl)
          end
      end
  end.

Record putBody := PutBody {
  put_name : option string;
  put_prefix : option string;
  put_host : option string
}.

Definition keep (v : option string) : option string :=
  if Js.truthy v then v else None.

(** Lines 241-253: only the truthy fields of the body are set. *)
Definition update (body : putBody) : updateSet :=
  UpdateSet (keep (put_name body)) (keep (put_prefix body)) (keep (put_host body)).

Definition options : updateOptions := UpdateOptions true true.

(** [router.put('/:applicationId')]. *)
Definition put (applicationId : option string) (body : putBody) (db : DB)
    : reply application * DB :=
  if negb (Js.truthy applicationId)
  then (NextErr (Error "You must provide a valid application id" (Some 400)), db)
  else
    match findOneAndUpdate M (default "" applicationId) (update body) options db with
    | (inl err, db) => (NextErr (set_status err 403), db)
    | (inr None, db) =>
        (NextErr (Error "No application with the given application id exists."
                        (Some 400)), db)
    | (inr (Some application), db) => (Json application, db)
    end.

End Routes.

End Applications.

(** ** The application registry *)

Module Store.

(** Modelled from the spec: the document store is absent from src.  It
    holds the collection, the number of documents created so far and the
    clock reading used for [timeCreated]. *)
Record db := Db { docs : list application; serial : nat; now : string }.

(** Modelled from the spec: the id of the [n]-th document created; the
    store gives every application an id of its own. *)
Definition objectId (n : nat) : string := "app-" ++ pretty n.

(** Modelled from the spec: the application with the given id, if any. *)
Definition byId (id : string) (d : db) : option application :=
  List.find (fun a => String.eqb (_id a) id) (docs d).

(** Modelled from the spec: prefix and host are each unique across all
    applications; these tell whether a document other than [self]
    already has the prefix or the host. *)
Definition others (self : string) (d : db) : list application :=
  List.filter (fun a => negb (String.eqb (_id a) self)) (docs d).

(** Modelled from the spec: another application has the prefix [p]. *)
Definition prefixTaken (self p : string) (d : db) : bool :=
  existsb (fun a => String.eqb (prefix a) p) (others self d).

(** Modelled from the spec: another application has the host [h]. *)
Definition hostTaken (self : string) (h : option string) (d : db) : bool :=
  match h with
  | Some h => existsb (fun a => bool_decide (host a = Some h)) (others self d)
  | None => false
  end.

(** Modelled from the spec: the prefix or the host that is to be set
    belongs to another application. *)
Definition conflicts (self : string) (u : updateSet) (d : db) : bool :=
  from_option (fun p => prefixTaken self p d) false (set_prefix u)
  || hostTaken self (set_host u) d.

(** Modelled from the spec: the errors of the store for a uniqueness
    violation and for a malformed host; they carry no status. *)
Definition duplicateKey : error := Error "E11000 duplicate key error" None.
Definition invalidHost : error := Error "Validation failed" None.

(** Modelled from the spec: a partial update of name, prefix and host;
    the fields that are not set keep their value. *)
Definition applySet (u : updateSet) (a : application) : application :=
  Application (_id a)
    (from_option Some (name a) (set_name u))
    (default (prefix a) (set_prefix u))
    (from_option Some (host a) (set_host u))
    (timeCreated a).

(** Modelled from the spec: the collection with [a] in the place of the
    document that has its id. *)
Definition replace (a : application) (d : db) : db :=
  Db ((fun b => if String.eqb (_id b) (_id a) then a else b) <$> docs d)
     (serial d) (now d).

Section Validator.
Variable isURL : string -> bool.

(** Modelled from the spec: the application model (schema/application,
    on the document store) is absent from src.  [register] fails when
    the prefix or the host is already registered and otherwise adds
    the document; the fields are stored as they are given, which is
    what the registration test observes (the host of the answer
    equals the host that was posted, "localhost:3309").  A document
    that is being created has no id yet, hence the empty [self]. *)
Definition create (p h : string) (d : db) : (error + application) * db :=
  if prefixTaken "" p d || hostTaken "" (Some h) d then (inl duplicateKey, d)
  else
    let a := Application (objectId (serial d)) None p (Some h) (now d) in
    (inr a, Db (docs d ++ [a])%list (S (serial d)) (now d)).

(** Modelled from the spec: the host that is to be set is not
    URL-shaped, by the validator [isURL] of the schema. *)
Definition malformed (u : updateSet) : bool :=
  from_option (fun h => negb (isURL h)) false (set_host u).

(** Modelled from the spec: the application model is absent from src.
    [update] re-validates the host shape (when validators are to be
    run) and the uniqueness of prefix and host, fails on a violation,
    reports an absent id as no document, and otherwise stores the
    updated application and returns it (the former one unless [new]
    is set). *)
Definition findOneAndUpdate (id : string) (u : updateSet) (o : updateOptions)
    (d : db) : (error + option application) * db :=
  if runValidators o && malformed u then (inl invalidHost, d)
  else
    match byId id d with
    | None => (inr None, d)
    | Some a =>
        let a' := applySet u a in
        if conflicts id u d then (inl duplicateKey, d)
        else (inr (Some (if new o then a' else a)), replace a' d)
    end.

(** Modelled from the spec: the application model over this store. *)
Definition model : ApplicationModel db :=
  Build_ApplicationModel db create findOneAndUpdate.

End Validator.

End Store.

(** ** The access control engine *)

Module Rbac.

(** Modelled from the spec: the engine behind [req.app.acl] is absent
    from src.  A role is an ordered sequence of allow-rules, each a set
    of resources and a set of permissions; a user holds a set of role
    names. *)
Record allowRule := AllowRule { rule_resources : gset string; rule_permissions : gset string }.

(** Modelled from the spec: the rules of every role and the roles of
    every user. *)
Record state := State {
  roleRules : gmap string (list allowRule);
  userRoles : gmap string (gset string)
}.

Definition wildcard : string := "*".

(** Modelled from the spec: the part of a path before its last '/', if
    it has one. *)
Fixpoint beforeLastSlash (s : string) : option string :=
  match s with
  | EmptyString => None
  | String c s' =>
      match beforeLastSlash s' with
      | Some t => Some (String c t)
      | None => if Ascii.eqb c "/" then Some EmptyString else None
      end
  end.

(** Modelled from the spec: drop the last segment of a path. *)
Definition dropLastSegment (p : string) : string := default "" (beforeLastSlash p).

(** Modelled from the spec: strip the path from the right at '/'
    boundaries and retry, until the path is empty.  The loop is bounded
    by [fuel]; every round shortens the path. *)
Fixpoint ancestorMatches (fuel : nat) (patterns : gset string) (p : string) : bool :=
  match fuel with
  | O => false
  | S fuel =>
      let q := dropLastSegment p in
      if String.eqb q "" then false
      else bool_decide (q ∈ patterns) || ancestorMatches fuel patterns q
  end.

(** Modelled from the spec: the hierarchical resource-matching policy;
    an exact match always matches. *)
Definition resourceMatches (patterns : gset string) (resource : string) : bool :=
  bool_decide (resource ∈ patterns)
  || ancestorMatches (String.length resource) patterns resource.

(** Modelled from the spec: the action, compared without regard to
    case, is in the permission set, or the set has the wildcard. *)
Definition permissionMatches (perms : gset string) (action : string) : bool :=
  bool_decide (set_Exists (fun p => Js.toLowerCase p = Js.toLowerCase action) perms)
  || bool_decide (wildcard ∈ perms).

(** Modelled from the spec: a rule matches when its permissions match
    the action and its resources match the resource. *)
Definition ruleMatches (resource action : string) (r : allowRule) : bool :=
  permissionMatches (rule_permissions r) action
  && resourceMatches (rule_resources r) resource.

(** Modelled from the spec: a role allows when one of its rules
    matches. *)
Definition roleAllows (st : state) (resource action role : string) : bool :=
  existsb (ruleMatches resource action) (default [] (roleRules st !! role)).

(** Modelled from the spec: [isAllowed]; an unknown user holds no role
    and any match of any held role allows. *)
Definition isAllowed (st : state) (userId resource action : string) : bool :=
  existsb (roleAllows st resource action)
          (elements (default ∅ (userRoles st !! userId))).

(** Modelled from the spec: [assignRoles]; one name that is not an
    existing role rejects the whole batch. *)
Definition assignRoles (userId : string) (names : list string) (st : state)
    : error + state :=
  if forallb (fun n => bool_decide (is_Some (roleRules st !! n))) names
  then inr (State (roleRules st)
                  (<[userId := list_to_set names ∪ default ∅ (userRoles st !! userId)]>
                     (userRoles st)))
  else inl (Error "Some of the roles do not exist" (Some 400)).

(** Modelled from the spec: an allow of a request body as a rule. *)
Definition toRule (a : allow) : allowRule :=
  AllowRule (list_to_set (resources a)) (list_to_set (permissions a)).

(** Modelled from the spec: granting rules to a role adds them to the
    rules the role already has. *)
Definition grant (r : roleSpec) (rs : gmap string (list allowRule))
    : gmap string (list allowRule) :=
  <[roles r := (default [] (rs !! roles r) ++ (toRule <$> allows r))%list]> rs.

(** Modelled from the spec: [acl.allow(rolesArray)] grants every role
    of the array in turn. *)
Definition allowAll (rolesArray : list roleSpec) (st : state) : option error * state :=
  (None, State (foldl (fun rs r => grant r rs) (roleRules st) rolesArray)
               (userRoles st)).

Definition acl : Acl state := {| acl_allow := allowAll |}.

(** [a] is a proper ancestor of the path [r]: [r] continues [a] with a
    '/' and further segments. *)
Definition ancestor (a r : string) : Prop :=
  a <> "" /\ exists rest, r = a ++ "/" ++ rest.

(** The rule grants [action] on [resource]. *)
Definition grants (rule : allowRule) (resource action : string) : Prop :=
  resource ∈ rule_resources rule
  /\ (action ∈ rule_permissions rule \/ wildcard ∈ rule_permissions rule).

End Rbac.

(** ** The scenario of the test suite *)

Module Sample.

(** A validator that accepts every host. *)
Definition anyHost (h : string) : bool := true.

(** A validator that refuses the hosts with an underscore. *)
Definition noUnderscore (h : string) : bool :=
  negb (existsb (fun ch => Ascii.eqb ch "_") (list_ascii_of_string h)).

Definition emptyDb : Store.db := Store.Db [] 0 "2015-07-06T09:03:52.636Z".

Definition emptyAcl : Rbac.state := Rbac.State ∅ ∅.

Definition gleanerRoles : list roleSpec :=
  [RoleSpec "gleanerUser"
     [Allow ["/route1"] ["post"; "get"; "delete"; "put"]]].

Definition gleanerBody : Applications.postBody :=
  Applications.PostBody (Some "gleaner") (Some "localhost:3309") (Some gleanerRoles).

(** The registration of the gleaner application and its roles. *)
Definition registered : reply Applications.summary * Store.db * Rbac.state :=
  Applications.post (Store.model anyHost) Rbac.acl gleanerBody emptyDb emptyAcl.

Definition gateway (d : Store.db) (st : Rbac.state) (backendUp : bool)
    : collaborators :=
  Collaborators
    (fun p => inr (List.find (fun a => String.eqb (prefix a) p) (Store.docs d)))
    (fun u r a => inr (Rbac.isAllowed st u r a))
    true
    (fun _ _ => "{}")
    (fun _ => if backendUp then None
              else Some (Error "connect ECONNREFUSED 127.0.0.1:3309" None)).

(** The gateway after the registration, once [user_asd] holds the role
    [gleanerUser]. *)
Definition live (backendUp : bool) : collaborators :=
  let '(_, d, st) := registered in
  gateway d (match Rbac.assignRoles "user_asd" ["gleanerUser"] st with
             | inr st' => st'
             | inl _ => st
             end) backendUp.

Definition get (path : string) (q : option string) : request :=
  Request (Some "gleaner") path "GET" q "user_asd".

(** A second registry, with an administrator who may do anything
    below each prefix. *)
Definition myurl : application :=
  Application "app-1" (Some "My App") "prefix" (Some "http://myurl.com")
              "2015-07-06T09:03:52.636Z".

Definition legacy : application :=
  Application "app-2" None "legacy" (Some "httpserver.com")
              "2015-07-06T09:03:52.636Z".

Definition nohost : application :=
  Application "app-3" (Some "Gleaner App.") "nohost" None
              "2015-07-06T09:03:52.636Z".

Definition bare : application :=
  Application "app-4" None "bare" None "2015-07-06T09:03:52.636Z".

Definition adminDb : Store.db :=
  Store.Db [myurl; legacy; nohost; bare] 5 "2015-07-06T09:03:52.636Z".

Definition adminAcl : Rbac.state :=
  Rbac.State
    {["admin" := [Rbac.AllowRule {["prefix"; "legacy"]} {[Rbac.wildcard]}]]}
    {["root" := {["admin"]}]}.

Definition admin (backendUp : bool) : collaborators :=
  gateway adminDb adminAcl backendUp.

Definition asRoot (p path : string) (q : option string) : request :=
  Request (Some p) path "GET" q "root".

End Sample.

(** ** The list, get and delete routes *)

(** [pagedFind] of the application model, as the list route calls it:
    query, fields, removeFields, sort, limit, page; [Page] is what it
    hands to its callback. *)
Record ApplicationPages (DB Page : Type) := {
  pagedFind :
    list (string * string) -> string -> list string -> string -> Z -> Z -> DB
    -> error + Page
}.
Arguments pagedFind {DB Page} _ _ _ _ _ _ _ _.

(** [findById] and [findOneAndRemove] of the application model. *)
Record ApplicationQueries (DB : Type) := {
  findById : string -> DB -> error + option application;
  findOneAndRemove : string -> DB -> (error + option application) * DB
}.
Arguments findById {DB} _ _ _.
Arguments findOneAndRemove {DB} _ _ _.

Module Routes.

(** [req.body] of the list route; the numbers are integers. *)
Record listBody := ListBody {
  fields : option string;
  sort : option string;
  limit : option Z;
  page : option Z
}.

(** [v || d] for a string and for a number: an absent value, the empty
    string and 0 give way to [d]. *)
Definition orString (v : option string) (d : string) : string :=
  if Js.truthy v then default "" v else d.

Definition orNumber (v : option Z) (d : Z) : Z :=
  match v with
  | Some n => if (n =? 0)%Z then d else n
  | None => d
  end.

Definition removeFields : list string := ["__v"].

(** What [pagedFind] is called with (lines 62-68). *)
Record pagedQuery := PagedQuery {
  q_query : list (string * string);
  q_fields : string;
  q_removeFields : list string;
  q_sort : string;
  q_limit : Z;
  q_page : Z
}.

Definition pagedQueryOf (body : listBody) : pagedQuery :=
  PagedQuery [] (orString (fields body) "") removeFields
             (orString (sort body) "_id")
             (orNumber (limit body) 20) (orNumber (page body) 1).

(** [res.sendDefaultSuccessMessage()]. *)
Inductive successMessage := DefaultSuccessMessage.

Section Handlers.
Context {DB Page : Type} (P : ApplicationPages DB Page) (Q : ApplicationQueries DB).

(** [router.get('/')]: an error of the model goes to [next] as it is. *)
Definition getApplications (body : listBody) (db : DB) : reply Page :=
  let q := pagedQueryOf body in
  match pagedFind P (q_query q) (q_fields q) (q_removeFields q) (q_sort q)
                    (q_limit q) (q_page q) db with
  | inl err => NextErr err
  | inr results => Json results
  end.

(** [router.get('/:applicationId')]. *)
Definition getApplication (applicationId : option string) (db : DB)
    : reply application :=
  match findById Q (orString applicationId "") db with
  | inl err => NextErr err
  | inr None =>
      NextErr (Error "No application with the given application id exists."
                     (Some 400))
  | inr (Some application) => Json application
  end.

(** [router.delete('/:applicationId')]. *)
Definition deleteApplication (applicationId : option string) (db : DB)
    : reply successMessage * DB :=
  match findOneAndRemove Q (orString applicationId "") db with
  | (inl err, db) => (NextErr err, db)
  | (inr None, db) =>
      (NextErr (Error "No application with the given application id exists."
                      (Some 400)), db)
  | (inr (Some _), db) => (Json DefaultSuccessMessage, db)
  end.

End Handlers.

End Routes.

(** ** The registry behind the other routes *)

Module Registry.

(** Modelled from the spec: [findById] of the application model, which is
    absent from src; the application with the id, or none. *)
Definition findById (id : string) (d : Store.db) : error + option application :=
  inr (Store.byId id d).

(** Modelled from the spec: the collection without the documents that
    have the id. *)
Definition without (id : string) (d : Store.db) : Store.db :=
  Store.Db (List.filter (fun a => negb (String.eqb (_id a) id)) (Store.docs d))
           (Store.serial d) (Store.now d).

(** Modelled from the spec: [remove(id)] reports an absent id as no
    document and otherwise takes the application out of the collection
    and hands it back. *)
Definition findOneAndRemove (id : string) (d : Store.db)
    : (error + option application) * Store.db :=
  match Store.byId id d with
  | None => (inr None, d)
  | Some a => (inr (Some a), without id d)
  end.

(** Modelled from the spec: the queries of the application model over the
    store. *)
Definition queries : ApplicationQueries Store.db :=
  Build_ApplicationQueries Store.db findById findOneAndRemove.

(** Modelled from the spec: [findByPrefix], exact match only. *)
Definition findByPrefix (p : string) (d : Store.db) : option application :=
  List.find (fun a => String.eqb (prefix a) p) (Store.docs d).

(** Modelled from the spec: every id in the collection is one the store
    has given out. *)
Definition allocated (d : Store.db) : bool :=
  forallb (fun a => existsb (fun k => String.eqb (_id a) (Store.objectId k))
                            (seq 0 (Store.serial d)))
          (Store.docs d).

End Registry.

(** ** Observations on the proxy route *)

Module Observe.

(** The same collaborators with the logger present or absent. *)
Definition withLogger (c : collaborators) (present : bool) : collaborators :=
  Collaborators (findByPrefix c) (isAllowed c) present
                (allowedPermissions c) (proxy_web c).

(** An upper-case ASCII letter. *)
Definition isUpperCase (ch : ascii) : bool :=
  let n := N_of_ascii ch in ((65 <=? n) && (n <=? 90))%N.

(** What [next] and the proxy received, and what the acl was asked. *)
Definition outcome (tr : list event)
    : list error * list string * list (string * string * string) :=
  (Proxy.failures tr, Proxy.forwarded tr, Proxy.queries tr).

End Observe.

(** ** Collaborators that fail *)

Module Failing.

(** An acl whose backend refuses every grant. *)
Definition acl : Acl unit :=
  Build_Acl unit (fun _ st => (Some (Error "acl backend unavailable" (Some 500)), st)).

(** The test body with roles, for a prefix and a host of its own. *)
Definition body : Applications.postBody :=
  Applications.PostBody (Some "test-prefix") (Some "http://testhost.com")
                        (Some Sample.gleanerRoles).

End Failing.

(** ** The store and the acl after the registration of the test suite *)

Module Scenario.

Definition gleaner : application :=
  Application "app-0" None "gleaner" (Some "localhost:3309")
              "2015-07-06T09:03:52.636Z".

Definition db : Store.db := Store.Db [gleaner] 1 "2015-07-06T09:03:52.636Z".

Definition acl : Rbac.state :=
  Rbac.State
    {["gleanerUser" :=
        [Rbac.AllowRule (list_to_set ["gleaner/route1"])
                        (list_to_set ["post"; "get"; "delete"; "put"])]]}
    ∅.

Definition summary : Applications.summary :=
  Applications.Summary "app-0" "gleaner" (Some "localhost:3309")
                       "2015-07-06T09:03:52.636Z".

(** The application and the store of the failed registration. *)
Definition testApp : application :=
  Application "app-0" None "test-prefix" (Some "http://testhost.com")
              "2015-07-06T09:03:52.636Z".

Definition testDb : Store.db := Store.Db [testApp] 1 "2015-07-06T09:03:52.636Z".

(** The application "app-1" after its update. *)
Definition renamed : application :=
  Application "app-1" (Some "My App") "new_prefix" (Some "http://myurl22.com")
              "2015-07-06T09:03:52.636Z".

End Scenario.

(** ** The definitions on small inputs *)

Example slice_from_end : Js.slice "hello" (-3) None = "llo".
Proof. reflexivity. Qed.

Example slice_clamped : Js.slice "hi" 0 (Some 4) = "hi".
Proof. reflexivity. Qed.

Example toLowerCase_method : Js.toLowerCase "DELETE" = "delete".
Proof. reflexivity. Qed.

Example normalizeHost_bare : Proxy.normalizeHost "localhost:3300" = "http://localhost:3300".
Proof. reflexivity. Qed.

Example normalizeHost_one_slash : Proxy.normalizeHost "myurl.com//" = "http://myurl.com/".
Proof. reflexivity. Qed.

Example normalizeHost_https : Proxy.normalizeHost "https://myurl.com/" = "https://myurl.com".
Proof. reflexivity. Qed.

Example dropLastSegment_deep :
  Rbac.dropLastSegment "gleaner/traces/42" = "gleaner/traces".
Proof. reflexivity. Qed.

Example dropLastSegment_single : Rbac.dropLastSegment "gleaner" = "".
Proof. reflexivity. Qed.

(** The scenario of the specification: the user with the role is
    forwarded for "/route1", refused for "/route2", and an unknown prefix
    is a bad request. *)
Example gleaner_route1 :
  Proxy.handler (Sample.live true) (Sample.get "/route1" None)
  = [FindByPrefix "gleaner"; IsAllowed "user_asd" "gleaner/route1" "get";
     LoggerDebug "Allowed get on gleaner/route1 by user user_asd";
     ProxyWeb "http://localhost:3309/route1" true true].
Proof. vm_compute. reflexivity. Qed.

Example gleaner_route2 :
  Proxy.failures (Proxy.handler (Sample.live true) (Sample.get "/route2" None))
  = [Error "Insufficient permissions to access resource" (Some 403)].
Proof. vm_compute. reflexivity. Qed.

Example unknown_prefix :
  Proxy.failures
    (Proxy.handler (Sample.live true) (Request (Some "unknownapp") "/x" "GET" None "user_asd"))
  = [Error "No application found with the given prefix: unknownapp" (Some 400)].
Proof. vm_compute. reflexivity. Qed.

Example put_new_prefix_and_host :
  fst (Applications.put (Store.model Sample.noUnderscore) (Some "app-1")
         (Applications.PutBody None (Some "new_prefix") (Some "http://myurl22.com"))
         Sample.adminDb)
  = Json (Application "app-1" (Some "My App") "new_prefix" (Some "http://myurl22.com")
                      "2015-07-06T09:03:52.636Z").
Proof. vm_compute. reflexivity. Qed.

(** ** Facts about the string primitives *)

Section StringFacts.

Lemma append_cons (c : ascii) (s t : string) :
  String c s ++ t = String c (s ++ t).
Proof. reflexivity. Qed.

Lemma append_empty_l (t : string) : "" ++ t = t.
Proof. reflexivity. Qed.

Ltac unfold_append := rewrite ?append_cons, ?append_empty_l in *; simpl in *.

Lemma append_empty_r (s : string) : s ++ "" = s.
Proof. induction s as [|c s IH]; unfold_append; congruence. Qed.

Lemma append_assoc (s t u : string) : (s ++ t) ++ u = s ++ t ++ u.
Proof. induction s as [|c s IH]; unfold_append; congruence. Qed.

Lemma length_append (s t : string) :
  String.length (s ++ t) = (String.length s + String.length t)%nat.
Proof. induction s as [|c s IH]; unfold_append; congruence. Qed.

Lemma substring_all (s : string) (n : nat) :
  (String.length s <= n)%nat -> substring 0 n s = s.
Proof.
  revert n; induction s as [|c s IH]; intros [|n] Hn; simpl in *;
    try reflexivity; try lia.
  f_equal. apply IH. lia.
Qed.

Lemma substring_append_l (s t : string) :
  substring 0 (String.length s) (s ++ t) = s.
Proof.
  induction s as [|c s IH]; unfold_append.
  - destruct t; reflexivity.
  - congruence.
Qed.

Lemma substring_split (s : string) (n : nat) :
  (n <= String.length s)%nat ->
  s = substring 0 n s ++ substring n (String.length s - n) s.
Proof.
  revert n; induction s as [|c s IH]; intros [|n] Hn; simpl in *;
    try reflexivity; try lia.
  - unfold_append. f_equal. symmetry. apply substring_all. lia.
  - unfold_append. f_equal. apply IH. lia.
Qed.

(** [slice(0, n)] keeps the first [n] code units, or all of them. *)
Lemma slice_0 (s : string) (n : Z) :
  0 <= n -> Js.slice s 0 (Some n) = substring 0 (Z.to_nat n) s.
Proof.
  intros Hn. unfold Js.slice.
  replace (0 <? 0)%Z with false by reflexivity.
  destruct (Z.ltb_spec n 0) as [?|_]; [lia|].
  rewrite Z.min_l by lia. rewrite Z.sub_0_r. simpl Z.to_nat.
  destruct (Z.le_ge_cases n (Z.of_nat (String.length s))) as [Hle|Hge].
  - rewrite Z.min_l by lia. reflexivity.
  - rewrite Z.min_r by lia. rewrite Nat2Z.id.
    rewrite !substring_all by lia. reflexivity.
Qed.

(** [startsWith] is the prefix test. *)
Lemma startsWith_spec (source str : string) :
  Proxy.startsWith source str = true <-> exists rest, source = str ++ rest.
Proof.
  unfold Proxy.startsWith. rewrite slice_0 by lia. rewrite Nat2Z.id.
  rewrite String.eqb_eq. split.
  - intros Hs.
    destruct (Nat.le_gt_cases (String.length str) (String.length source)) as [Hle|Hgt].
    + exists (substring (String.length str)
                        (String.length source - String.length str) source).
      rewrite <- Hs at 1. apply substring_split. exact Hle.
    + rewrite substring_all in Hs by lia. exists "". subst. now rewrite append_empty_r.
  - intros [rest ->]. apply substring_append_l.
Qed.

Lemma substring_last (t : string) (c : ascii) :
  substring (String.length t) 1 (t ++ String c "") = String c "".
Proof. induction t as [|d t IH]; unfold_append; [reflexivity | exact IH]. Qed.

Lemma snoc_cases (s : string) :
  s = "" \/ exists t c, s = t ++ String c "".
Proof.
  induction s as [|d s IH]; [now left | right].
  destruct IH as [->|(t & c & ->)].
  - exists "", d. reflexivity.
  - exists (String d t), c. reflexivity.
Qed.

(** [endsWith source "/"] holds exactly of the strings with a last
    code unit '/', and [slice(0, length - 1)] then removes it. *)
Lemma endsWith_slash_spec (source : string) :
  Proxy.endsWith source "/" = true <-> exists t, source = t ++ "/".
Proof.
  unfold Proxy.endsWith, Js.slice. simpl String.length.
  replace (- Z.of_nat 1 <? 0)%Z with true by reflexivity.
  rewrite String.eqb_eq.
  destruct (snoc_cases source) as [->|(t & c & ->)].
  - simpl. split; [discriminate|]. intros [[|d t] Ht]; discriminate.
  - rewrite length_append. simpl String.length.
    rewrite Z.max_l by lia.
    replace (Z.to_nat (Z.of_nat (String.length t + 1) + - Z.of_nat 1))
      with (String.length t) by lia.
    replace (Z.to_nat (Z.of_nat (String.length t + 1)
                       - (Z.of_nat (String.length t + 1) + - Z.of_nat 1)))
      with 1%nat by lia.
    rewrite substring_last. split.
    + intros [= ->]. now exists t.
    + intros [u Hu]. f_equal.
      assert (Hlen : String.length t = String.length u).
      { apply (f_equal String.length) in Hu. rewrite !length_append in Hu.
        simpl in Hu. lia. }
      clear -Hu Hlen. revert u Hu Hlen.
      induction t as [|d t IH]; intros [|e u] Hu Hlen; unfold_append;
        try discriminate.
      * now injection Hu.
      * injection Hu as _ Hu. injection Hlen as Hlen. eauto.
Qed.

Lemma slice_drop_last (t : string) (c : ascii) :
  Js.slice (t ++ String c "") 0
           (Some (Z.of_nat (String.length (t ++ String c "")) - 1)) = t.
Proof.
  rewrite length_append. simpl String.length.
  rewrite slice_0 by lia.
  replace (Z.to_nat (Z.of_nat (String.length t + 1) - 1)) with (String.length t) by lia.
  apply substring_append_l.
Qed.

Lemma toLowerCaseChar_idem (c : ascii) :
  Js.toLowerCaseChar (Js.toLowerCaseChar c) = Js.toLowerCaseChar c.
Proof. destruct c as [[] [] [] [] [] [] [] []]; reflexivity. Qed.

Lemma toLowerCase_idem (s : string) :
  Js.toLowerCase (Js.toLowerCase s) = Js.toLowerCase s.
Proof.
  induction s as [|c s IH]; simpl; [reflexivity|].
  now rewrite toLowerCaseChar_idem, IH.
Qed.

Lemma truthy_Some (s : string) : Js.truthy (Some s) = true <-> s <> "".
Proof.
  unfold Js.truthy. destruct (String.eqb_spec s ""); simpl; split;
    congruence.
Qed.

End StringFacts.

(** ** The proxy route: forwarding, authorization and failures *)

Section ProxyFacts.

Variables (c : collaborators) (req : request).

Lemma truthy_present (s : string) : s <> "" -> Js.truthy (Some s) = true.
Proof. apply truthy_Some. Qed.

Lemma handler_resolved (p : string) (a : application) (h : string) :
  Proxy.resolves c req p a h ->
  Proxy.handler c req = FindByPrefix p :: Proxy.authorize c req p h.
Proof.
  intros (Hp & Hp' & Hfind & Hh & Hh'). unfold Proxy.handler.
  rewrite Hp, (truthy_present p Hp'). simpl. rewrite Hfind, Hh.
  now rewrite (truthy_present h Hh').
Qed.

Lemma debug_silent (msg : string) :
  Proxy.forwarded (Proxy.debug c msg) = []
  /\ Proxy.failures (Proxy.debug c msg) = []
  /\ Proxy.queries (Proxy.debug c msg) = [].
Proof. unfold Proxy.debug. destruct (logger c); repeat split. Qed.

Lemma forwarded_app (l k : list event) :
  Proxy.forwarded (l ++ k)%list = (Proxy.forwarded l ++ Proxy.forwarded k)%list.
Proof. apply omap_app. Qed.

Lemma failures_app (l k : list event) :
  Proxy.failures (l ++ k)%list = (Proxy.failures l ++ Proxy.failures k)%list.
Proof. apply omap_app. Qed.

Lemma queries_app (l k : list event) :
  Proxy.queries (l ++ k)%list = (Proxy.queries l ++ Proxy.queries k)%list.
Proof. apply omap_app. Qed.

Lemma target_concat (h sub : string) (q : option string) :
  Proxy.target h sub q = h ++ sub ++ default "" q.
Proof.
  unfold Proxy.target. destruct q as [q|]; simpl.
  - destruct (String.eqb_spec q "") as [->|_]; simpl.
    + now rewrite append_empty_r.
    + apply append_assoc.
  - now rewrite append_empty_r.
Qed.

Lemma authorize_allowed (p h : string) :
  Proxy.decision c req p = inr true ->
  Proxy.forwarded (Proxy.authorize c req p h)
  = [Proxy.target (Proxy.normalizeHost h) (params_0 req) (search req)]
  /\ Proxy.failures (Proxy.authorize c req p h)
     = match proxy_web c (Proxy.target (Proxy.normalizeHost h)
                                       (params_0 req) (search req)) with
       | Some err => [set_status err 503]
       | None => []
       end.
Proof.
  unfold Proxy.decision, Proxy.authorize. intros ->.
  match goal with |- context [Proxy.debug c ?m] =>
    destruct (debug_silent m) as (Hf & Hn & _) end.
  split.
  - change (Proxy.forwarded (?e :: ?l)) with (Proxy.forwarded l).
    rewrite forwarded_app, Hf. simpl.
    destruct (proxy_web c _); reflexivity.
  - change (Proxy.failures (IsAllowed ?u ?r ?a :: ?l)) with (Proxy.failures l).
    rewrite failures_app, Hn. simpl.
    destruct (proxy_web c _); reflexivity.
Qed.

Lemma authorize_denied (p h : string) :
  Proxy.decision c req p = inr false ->
  Proxy.forwarded (Proxy.authorize c req p h) = []
  /\ Proxy.failures (Proxy.authorize c req p h)
     = [Error "Insufficient permissions to access resource" (Some 403)].
Proof.
  unfold Proxy.decision, Proxy.authorize. intros ->.
  split.
  - change (Proxy.forwarded (?e :: ?l)) with (Proxy.forwarded l).
    rewrite !forwarded_app.
    rewrite !(proj1 (debug_silent _)). reflexivity.
  - change (Proxy.failures (IsAllowed ?u ?r ?a :: ?l)) with (Proxy.failures l).
    rewrite !failures_app.
    rewrite !(proj1 (proj2 (debug_silent _))). reflexivity.
Qed.

Lemma authorize_queries (p h : string) :
  Proxy.queries (Proxy.authorize c req p h)
  = [(username req, p ++ params_0 req, Js.toLowerCase (method req))].
Proof.
  unfold Proxy.authorize.
  change (Proxy.queries (IsAllowed ?u ?r ?a :: ?l)) with ((u, r, a) :: Proxy.queries l).
  f_equal.
  destruct (isAllowed c _ _ _) as [err|[]]; [reflexivity| |].
  - rewrite queries_app, (proj2 (proj2 (debug_silent _))). simpl.
    destruct (proxy_web c _); reflexivity.
  - rewrite !queries_app, !(proj2 (proj2 (debug_silent _))). reflexivity.
Qed.

End ProxyFacts.

Section ProxyClaims.

Variables (c : collaborators) (req : request).


(** C2: the acl is asked once, about the resource [prefix ++ subPath]
    (plain concatenation) and the action that is the method in lower
    case, for the user of the request. *)
Theorem acl_query_exact (p : string) (a : application) (h : string) :
  Proxy.resolves c req p a h ->
  Proxy.queries (Proxy.handler c req)
  = [(username req, p ++ params_0 req, Js.toLowerCase (method req))].
Proof.
  intros Hres. rewrite (handler_resolved c req p a h Hres).
  change (Proxy.queries (FindByPrefix p :: ?l)) with (Proxy.queries l).
  apply authorize_queries.
Qed.

(** C4: when the acl denies, the one error given to [next] has status
    403 and the insufficient-permissions message, and nothing is handed
    to the proxy. *)
Theorem deny_is_forbidden (p : string) (a : application) (h : string) :
  Proxy.resolves c req p a h ->
  Proxy.decision c req p = inr false ->
  Proxy.failures (Proxy.handler c req)
  = [Error "Insufficient permissions to access resource" (Some 403)]
  /\ Proxy.forwarded (Proxy.handler c req) = [].
Proof.
  intros Hres Hdec. rewrite (handler_resolved c req p a h Hres).
  change (Proxy.forwarded (FindByPrefix p :: ?l)) with (Proxy.forwarded l).
  change (Proxy.failures (FindByPrefix p :: ?l)) with (Proxy.failures l).
  destruct (authorize_denied c req p h Hdec) as [-> ->]. now split.
Qed.

(** C5: whatever error the proxy reports while forwarding an allowed
    request, it reaches [next] with status 503, its own status (if it
    had one) overwritten. *)
Theorem transport_failure_is_503 (p : string) (a : application) (h : string)
    (err : error) :
  Proxy.resolves c req p a h ->
  Proxy.decision c req p = inr true ->
  proxy_web c (Proxy.normalizeHost h ++ params_0 req ++ default "" (search req))
  = Some err ->
  Proxy.failures (Proxy.handler c req) = [Error (message err) (Some 503)].
Proof.
  intros Hres Hdec Hweb. rewrite (handler_resolved c req p a h Hres).
  change (Proxy.failures (FindByPrefix p :: ?l)) with (Proxy.failures l).
  destruct (authorize_allowed c req p h Hdec) as [_ ->].
  rewrite target_concat, Hweb. reflexivity.
Qed.

(** C8: when the application found for the prefix has no host, the one
    error given to [next] has status 400 and a message that names the
    application: its name followed by the prefix in parentheses, or the
    prefix alone when it has no name; the acl and the proxy are not
    reached. *)
Theorem undefined_host_is_400 (p : string) (a : application) :
  params_prefix req = Some p -> p <> "" ->
  findByPrefix c p = inr (Some a) ->
  Js.truthy (host a) = false ->
  (Js.truthy (name a) = false ->
   Proxy.failures (Proxy.handler c req)
   = [Error ("It seems that the application " ++ p ++ " has an undefined host.")
            (Some 400)])
  /\ (forall n, name a = Some n -> n <> "" ->
      Proxy.failures (Proxy.handler c req)
      = [Error ("It seems that the application " ++ n ++ " (" ++ p
                ++ ") has an undefined host.") (Some 400)])
  /\ Proxy.queries (Proxy.handler c req) = []
  /\ Proxy.forwarded (Proxy.handler c req) = [].
Proof.
  intros Hp Hp' Hfind Hh. unfold Proxy.handler.
  rewrite Hp, (truthy_present p Hp'). simpl default. cbv iota.
  rewrite Hfind, Hh. unfold Proxy.undefinedHost.
  split; [|split; [|split; reflexivity]].
  - intros ->. reflexivity.
  - intros n -> Hn. rewrite (truthy_present n Hn). simpl.
    now rewrite !append_assoc.
Qed.

End ProxyClaims.

Section SchemeTest.

Variables (c : collaborators) (req : request).

Lemma normalizeHost_http (rest : string) :
  "http" ++ rest = Proxy.normalizeHost ("http" ++ rest)
  \/ "http" ++ rest = Proxy.normalizeHost ("http" ++ rest) ++ "/".
Proof.
  unfold Proxy.normalizeHost.
  assert (Hs : Proxy.startsWith ("http" ++ rest) "http" = true)
    by (apply startsWith_spec; now exists rest).
  rewrite Hs. simpl negb. cbv iota.
  destruct (Proxy.endsWith ("http" ++ rest) "/") eqn:He; [right | now left].
  apply endsWith_slash_spec in He as [t Ht]. rewrite Ht.
  now rewrite (slice_drop_last t "/").
Qed.

(** C9: the scheme test looks only at the first four characters: for
    every stored host that begins with "http", the target is that host
    (less one final '/', if it has one) followed by the sub-path and the
    query, with no "http://" put in front; the host "httpserver.com"
    gives a target that does not begin with "http://". *)
Theorem scheme_test_is_http_only (p : string) (a : application) (rest : string) :
  Proxy.resolves c req p a ("http" ++ rest) ->
  Proxy.decision c req p = inr true ->
  (exists h', Proxy.forwarded (Proxy.handler c req)
              = [h' ++ params_0 req ++ default "" (search req)]
              /\ ("http" ++ rest = h' \/ "http" ++ rest = h' ++ "/"))
  /\ (rest = "server.com" ->
      Proxy.forwarded (Proxy.handler c req)
      = ["httpserver.com" ++ params_0 req ++ default "" (search req)]
      /\ Proxy.startsWith
           ("httpserver.com" ++ params_0 req ++ default "" (search req))
           "http://" = false).
Proof.
  intros Hres Hdec.
  rewrite (handler_resolved c req p a _ Hres).
  change (Proxy.forwarded (FindByPrefix p :: ?l)) with (Proxy.forwarded l).
  destruct (authorize_allowed c req p ("http" ++ rest) Hdec) as [-> _].
  rewrite target_concat. split.
  - eexists. split; [reflexivity | apply normalizeHost_http].
  - intros ->. split; [reflexivity|].
    destruct (Proxy.startsWith _ "http://") eqn:Hs; [|reflexivity].
    apply startsWith_spec in Hs as [r Hr].
    rewrite !append_cons in Hr. discriminate.
Qed.

End SchemeTest.

(** ** The proxy route on the sample registries *)


Lemma acl_query_exact_witness :
  Proxy.queries (Proxy.handler (Sample.live true) (Sample.get "/route1" None))
  = [("user_asd", "gleaner/route1", "get")].
Proof.
  apply (acl_query_exact (Sample.live true) (Sample.get "/route1" None) "gleaner"
           (Application "app-0" None "gleaner" (Some "localhost:3309")
                        "2015-07-06T09:03:52.636Z")
           "localhost:3309").
  repeat split; discriminate.
Defined.

Lemma deny_is_forbidden_witness :
  Proxy.failures (Proxy.handler (Sample.live true) (Sample.get "/route2" None))
  = [Error "Insufficient permissions to access resource" (Some 403)]
  /\ Proxy.forwarded (Proxy.handler (Sample.live true) (Sample.get "/route2" None))
     = [].
Proof.
  apply (deny_is_forbidden (Sample.live true) (Sample.get "/route2" None) "gleaner"
           (Application "app-0" None "gleaner" (Some "localhost:3309")
                        "2015-07-06T09:03:52.636Z")
           "localhost:3309").
  - repeat split; discriminate.
  - reflexivity.
Defined.

Lemma transport_failure_is_503_witness :
  Proxy.failures (Proxy.handler (Sample.live false) (Sample.get "/route1" None))
  = [Error "connect ECONNREFUSED 127.0.0.1:3309" (Some 503)].
Proof.
  apply (transport_failure_is_503 (Sample.live false) (Sample.get "/route1" None)
           "gleaner"
           (Application "app-0" None "gleaner" (Some "localhost:3309")
                        "2015-07-06T09:03:52.636Z")
           "localhost:3309"
           (Error "connect ECONNREFUSED 127.0.0.1:3309" None)).
  - repeat split; discriminate.
  - reflexivity.
  - reflexivity.
Defined.

Lemma undefined_host_is_400_witness :
  Proxy.failures (Proxy.handler (Sample.admin true) (Sample.asRoot "nohost" "/x" None))
  = [Error "It seems that the application Gleaner App. (nohost) has an undefined host."
           (Some 400)].
Proof.
  destruct (undefined_host_is_400 (Sample.admin true)
              (Sample.asRoot "nohost" "/x" None) "nohost" Sample.nohost)
    as (_ & H & _).
  - reflexivity.
  - discriminate.
  - reflexivity.
  - reflexivity.
  - apply (H "Gleaner App."); [reflexivity | discriminate].
Defined.

Lemma scheme_test_is_http_only_witness :
  Proxy.forwarded
    (Proxy.handler (Sample.admin true) (Sample.asRoot "legacy" "/status" None))
  = ["httpserver.com/status"].
Proof.
  destruct (scheme_test_is_http_only (Sample.admin true)
              (Sample.asRoot "legacy" "/status" None)
              "legacy" Sample.legacy "server.com") as [_ H].
  - repeat split; discriminate.
  - reflexivity.
  - exact (proj1 (H eq_refl)).
Defined.

(** ** The access control engine: matching under ancestors *)

Section RbacFacts.

Lemma beforeLastSlash_shorter (s t : string) :
  Rbac.beforeLastSlash s = Some t -> (String.length t < String.length s)%nat.
Proof.
  revert t; induction s as [|ch s IH]; intros t; simpl; [discriminate|].
  destruct (Rbac.beforeLastSlash s) as [t'|].
  - intros [= <-]. simpl. specialize (IH t' eq_refl). lia.
  - destruct (Ascii.eqb ch "/"); [|discriminate].
    intros [= <-]. simpl. lia.
Qed.

Lemma beforeLastSlash_append (a s t : string) :
  Rbac.beforeLastSlash s = Some t ->
  Rbac.beforeLastSlash (a ++ s) = Some (a ++ t).
Proof.
  intros Hs. induction a as [|ch a IH]; [exact Hs|].
  rewrite !append_cons. simpl. now rewrite IH.
Qed.

(** Dropping the last segment below [a ++ "/"] gives [a] itself or a
    shorter path below [a ++ "/"]. *)
Lemma dropLastSegment_below (a rest : string) :
  Rbac.dropLastSegment (a ++ "/" ++ rest) = a
  \/ exists rest', (String.length rest' < String.length rest)%nat
                   /\ Rbac.dropLastSegment (a ++ "/" ++ rest) = a ++ "/" ++ rest'.
Proof.
  unfold Rbac.dropLastSegment.
  destruct (Rbac.beforeLastSlash rest) as [t|] eqn:Hrest.
  - right. exists t. split; [now apply beforeLastSlash_shorter|].
    rewrite (beforeLastSlash_append a ("/" ++ rest) ("/" ++ t)); [reflexivity|].
    change (Rbac.beforeLastSlash (String "/" rest) = Some (String "/" t)).
    simpl. now rewrite Hrest.
  - left.
    rewrite (beforeLastSlash_append a ("/" ++ rest) "").
    + simpl. apply append_empty_r.
    + change (Rbac.beforeLastSlash (String "/" rest) = Some "").
      simpl. now rewrite Hrest.
Qed.

Lemma append_not_empty (a t : string) : a <> "" -> a ++ t <> "".
Proof. destruct a; [congruence | discriminate]. Qed.

(** The loop reaches every ancestor, given as many rounds as the rest
    of the path is long (and one more). *)
Lemma ancestorMatches_reaches (patterns : gset string) (a : string) :
  a <> "" -> a ∈ patterns ->
  forall fuel rest, (String.length rest < fuel)%nat ->
    Rbac.ancestorMatches fuel patterns (a ++ "/" ++ rest) = true.
Proof.
  intros Ha Hin. induction fuel as [|fuel IH]; intros rest Hlen; [lia|].
  simpl. destruct (dropLastSegment_below a rest) as [->|(rest' & Hlt & ->)].
  - destruct (String.eqb_spec a ""); [contradiction|].
    now rewrite bool_decide_eq_true_2.
  - destruct (String.eqb_spec (a ++ "/" ++ rest') "") as [He|_].
    + now apply append_not_empty in He.
    + rewrite IH by lia. apply orb_true_r.
Qed.

Lemma resourceMatches_ancestor (patterns : gset string) (a r : string) :
  a ∈ patterns -> a = r \/ Rbac.ancestor a r ->
  Rbac.resourceMatches patterns r = true.
Proof.
  intros Hin [<-|(Ha & rest & ->)]; unfold Rbac.resourceMatches.
  - now rewrite bool_decide_eq_true_2.
  - rewrite (ancestorMatches_reaches patterns a Ha Hin); [apply orb_true_r|].
    rewrite !length_append. simpl. lia.
Qed.

Lemma permissionMatches_granted (perms : gset string) (action : string) :
  action ∈ perms \/ Rbac.wildcard ∈ perms ->
  Rbac.permissionMatches perms action = true.
Proof.
  unfold Rbac.permissionMatches. intros [Hin|Hin].
  - rewrite bool_decide_eq_true_2; [reflexivity|]. now exists action.
  - rewrite (bool_decide_eq_true_2 (Rbac.wildcard ∈ perms)) by exact Hin.
    apply orb_true_r.
Qed.

Lemma ruleMatches_granted (rule : Rbac.allowRule) (a r action : string) :
  Rbac.grants rule a action -> a = r \/ Rbac.ancestor a r ->
  Rbac.ruleMatches r action rule = true.
Proof.
  intros [Hres Hperm] Hanc. unfold Rbac.ruleMatches.
  rewrite (permissionMatches_granted _ _ Hperm).
  now rewrite (resourceMatches_ancestor _ a r Hres Hanc).
Qed.

(** A matching rule of a role the user holds allows. *)
Lemma isAllowed_intro (st : Rbac.state) (u rn r action : string)
    (held : gset string) (rules : list Rbac.allowRule) (rule : Rbac.allowRule) :
  Rbac.userRoles st !! u = Some held -> rn ∈ held ->
  Rbac.roleRules st !! rn = Some rules -> rule ∈ rules ->
  Rbac.ruleMatches r action rule = true ->
  Rbac.isAllowed st u r action = true.
Proof.
  intros Hu Hheld Hrn Hrule Hmatch. unfold Rbac.isAllowed.
  rewrite Hu. simpl. apply existsb_exists. exists rn. split.
  - apply list_elem_of_In, elem_of_elements, Hheld.
  - unfold Rbac.roleAllows. rewrite Hrn. simpl.
    apply existsb_exists. exists rule. split; [|exact Hmatch].
    now apply list_elem_of_In.
Qed.

Lemma assignRoles_holds (st st' : Rbac.state) (u rn : string) :
  Rbac.assignRoles u [rn] st = inr st' ->
  Rbac.roleRules st' = Rbac.roleRules st
  /\ exists held, Rbac.userRoles st' !! u = Some held /\ rn ∈ held.
Proof.
  unfold Rbac.assignRoles. destruct (forallb _ _); [|discriminate].
  intros [= <-]. simpl. split; [reflexivity|].
  eexists. split; [apply lookup_insert_eq | set_solver].
Qed.

(** C6: when a role has a rule that grants [action] on the path [a],
    and [r] is [a] or has [a] as an ancestor, then once the role is
    assigned to a user, [isAllowed] allows the user [action] on [r]. *)
Theorem ancestor_grant_monotonic (st st' : Rbac.state) (u rn a r action : string)
    (rules : list Rbac.allowRule) (rule : Rbac.allowRule) :
  Rbac.roleRules st !! rn = Some rules -> rule ∈ rules ->
  Rbac.grants rule a action ->
  a = r \/ Rbac.ancestor a r ->
  Rbac.assignRoles u [rn] st = inr st' ->
  Rbac.isAllowed st' u r action = true.
Proof.
  intros Hrn Hrule Hgr Hanc Has.
  destruct (assignRoles_holds st st' u rn Has) as (Hroles & held & Hu & Hheld).
  apply (isAllowed_intro st' u rn r action held rules rule); auto.
  - now rewrite Hroles.
  - now apply (ruleMatches_granted rule a r action).
Qed.

End RbacFacts.

Lemma ancestor_grant_monotonic_witness :
  Rbac.isAllowed
    (Rbac.State (Rbac.roleRules Sample.adminAcl)
           (<["guest" := list_to_set ["admin"] ∪ ∅]> (Rbac.userRoles Sample.adminAcl)))
    "guest" "prefix/a/b" "get" = true.
Proof.
  apply (ancestor_grant_monotonic Sample.adminAcl _ "guest" "admin" "prefix"
           "prefix/a/b" "get"
           [Rbac.AllowRule {["prefix"; "legacy"]} {[Rbac.wildcard]}]
           (Rbac.AllowRule {["prefix"; "legacy"]} {[Rbac.wildcard]})).
  - reflexivity.
  - apply list_elem_of_here.
  - split; [set_solver | right; set_solver].
  - right. split; [discriminate | now exists "a/b"].
  - reflexivity.
Defined.

(** ** The application routes: registration and update *)

Section HostFacts.

Lemma snoc_inj (t u : string) (ch d : ascii) :
  t ++ String ch "" = u ++ String d "" -> t = u /\ ch = d.
Proof.
  revert u; induction t as [|e t IH]; intros [|f u] H;
    rewrite ?append_cons, ?append_empty_l in H.
  - injection H as ->. now split.
  - injection H as -> H. destruct u; discriminate.
  - injection H as -> H. destruct t; discriminate.
  - injection H as -> H. destruct (IH u H) as [-> ->]. now split.
Qed.



End HostFacts.

Section Registration.

Context {DB ACL : Type} (M : ApplicationModel DB) (A : Acl ACL).

(** A registration that answers has passed validation, created the
    application from the posted prefix and host, and run the roles
    task. *)
Lemma post_answers (body : Applications.postBody) (db db' : DB) (acl acl' : ACL)
    (s : Applications.summary) :
  Applications.post M A body db acl = (Json s, db', acl') ->
  exists p h a,
    Applications.body_prefix body = Some p /\ p <> ""
    /\ Applications.body_host body = Some h /\ h <> ""
    /\ create M p h db = (inr a, db')
    /\ Applications.rolesTask A body acl = (None, acl')
    /\ s = Applications.Summary (_id a) (prefix a) (host a) (timeCreated a).
Proof.
  unfold Applications.post, Applications.validate.
  destruct (Applications.body_prefix body) as [p|]; simpl; [|discriminate].
  destruct (String.eqb_spec p ""); simpl; [discriminate|].
  destruct (Applications.body_host body) as [h|]; simpl; [|discriminate].
  destruct (String.eqb_spec h ""); simpl; [discriminate|].
  destruct (create M p h db) as [[err|a] db1] eqn:Hcreate; [discriminate|].
  destruct (Applications.rolesTask A _ acl) as [[err|] acl1] eqn:Hroles;
    [discriminate|].
  intros [= <- <- <-]. exists p, h, a. repeat split; assumption.
Qed.

End Registration.

Section RegistryFacts.

Variable isURL : string -> bool.



End RegistryFacts.



Section Update.

Variable isURL : string -> bool.



End Update.


(** ** Roles given with a registration *)

Section RegisteredRoles.

(** The rewriting keeps the roles, their allows and the permissions,
    and puts the prefix in front of every resource. *)
Lemma prefixResources_elem (p : string) (rolesArray : list roleSpec)
    (role : roleSpec) (al : allow) :
  role ∈ rolesArray -> al ∈ allows role ->
  exists role' al',
    role' ∈ Applications.prefixResources p rolesArray
    /\ roles role' = roles role
    /\ al' ∈ allows role'
    /\ resources al' = (fun r => p ++ r) <$> resources al
    /\ permissions al' = permissions al.
Proof.
  intros Hrole Hal.
  exists (RoleSpec (roles role)
            ((fun a => Allow ((fun r => p ++ r) <$> resources a) (permissions a))
               <$> allows role)),
         (Allow ((fun r => p ++ r) <$> resources al) (permissions al)).
  repeat split.
  - unfold Applications.prefixResources.
    apply list_elem_of_fmap. now exists role.
  - simpl. apply list_elem_of_fmap. now exists al.
Qed.

Lemma grant_keeps (r : roleSpec) (rs : gmap string (list Rbac.allowRule))
    (rn : string) (rules : list Rbac.allowRule) (rule : Rbac.allowRule) :
  rs !! rn = Some rules -> rule ∈ rules ->
  exists rules', Rbac.grant r rs !! rn = Some rules' /\ rule ∈ rules'.
Proof.
  intros Hrn Hrule. unfold Rbac.grant.
  destruct (decide (roles r = rn)) as [->|Hne].
  - rewrite lookup_insert_eq, Hrn. eexists. split; [reflexivity|].
    apply elem_of_app. now left.
  - rewrite lookup_insert_ne by exact Hne. eauto.
Qed.

Lemma grants_keep (l : list roleSpec) (rs : gmap string (list Rbac.allowRule))
    (rn : string) (rules : list Rbac.allowRule) (rule : Rbac.allowRule) :
  rs !! rn = Some rules -> rule ∈ rules ->
  exists rules', foldl (fun rs r => Rbac.grant r rs) rs l !! rn = Some rules'
                 /\ rule ∈ rules'.
Proof.
  revert rs rules. induction l as [|r l IH]; intros rs rules Hrn Hrule; simpl.
  - eauto.
  - destruct (grant_keeps r rs rn rules rule Hrn Hrule) as (rules' & Hrn' & Hrule').
    eauto.
Qed.

(** Every allow of every role that is granted is among the rules of
    its role afterwards. *)
Lemma grants_store (l : list roleSpec) (rs : gmap string (list Rbac.allowRule))
    (role : roleSpec) (al : allow) :
  role ∈ l -> al ∈ allows role ->
  exists rules, foldl (fun rs r => Rbac.grant r rs) rs l !! roles role = Some rules
                /\ Rbac.toRule al ∈ rules.
Proof.
  revert rs. induction l as [|r l IH]; intros rs Hrole Hal.
  - now apply elem_of_nil in Hrole.
  - apply elem_of_cons in Hrole as [<-|Hrole]; simpl.
    + apply (grants_keep l _ (roles role)
               (default [] (rs !! roles role) ++ (Rbac.toRule <$> allows role))%list).
      * unfold Rbac.grant. apply lookup_insert_eq.
      * apply elem_of_app. right. now apply list_elem_of_fmap_2.
    + now apply IH.
Qed.

(** C10: the roles of a registration reach the acl with the prefix put
    in front of every resource by plain concatenation ("/route1" under
    "gleaner" becomes "gleaner/route1"); the rule so stored grants on
    [p ++ s], which is the resource the dispatcher asks about for a
    request under prefix [p] with sub-path [s], so a user holding the
    role is allowed that request. *)
Theorem registered_rule_matches_request {DB : Type} (M : ApplicationModel DB)
    (body : Applications.postBody) (db db' : DB) (st st' : Rbac.state)
    (sm : Applications.summary) (p : string) (rolesArray : list roleSpec)
    (role : roleSpec) (al : allow) (s action : string) :
  Applications.post M Rbac.acl body db st = (Json sm, db', st') ->
  Applications.body_prefix body = Some p ->
  Applications.body_roles body = Some rolesArray ->
  role ∈ rolesArray -> al ∈ allows role ->
  s ∈ resources al -> action ∈ permissions al ->
  Applications.rolesTask Rbac.acl body st
  = acl_allow Rbac.acl (Applications.prefixResources p rolesArray) st
  /\ Applications.prefixResources "gleaner"
       [RoleSpec "gleanerUser" [Allow ["/route1"] ["get"]]]
     = [RoleSpec "gleanerUser" [Allow ["gleaner/route1"] ["get"]]]
  /\ (exists rules rule,
        Rbac.roleRules st' !! roles role = Some rules /\ rule ∈ rules
        /\ Rbac.grants rule (p ++ s) action)
  /\ (forall (c : collaborators) (req : request) (a : application) (h : string)
             (st'' : Rbac.state),
        Proxy.resolves c req p a h ->
        params_0 req = s -> Js.toLowerCase (method req) = action ->
        Rbac.assignRoles (username req) [roles role] st' = inr st'' ->
        isAllowed c (username req) (p ++ s) action
        = inr (Rbac.isAllowed st'' (username req) (p ++ s) action) ->
        Proxy.queries (Proxy.handler c req) = [(username req, p ++ s, action)]
        /\ Proxy.decision c req p = inr true).
Proof.
  intros Hpost Hp Hroles Hrole Hal Hs Haction.
  destruct (post_answers M Rbac.acl body db db' st st' sm Hpost)
    as (p0 & h0 & a0 & Hp0 & _ & _ & _ & _ & Htask & _).
  assert (Hstored : exists rules rule,
             Rbac.roleRules st' !! roles role = Some rules /\ rule ∈ rules
             /\ Rbac.grants rule (p ++ s) action).
  { unfold Applications.rolesTask in Htask. rewrite Hroles, Hp in Htask.
    simpl in Htask. unfold Rbac.allowAll in Htask. injection Htask as <-.
    destruct (prefixResources_elem p rolesArray role al Hrole Hal)
      as (role' & al' & Hrole' & Hname & Hal' & Hres & Hperm).
    destruct (grants_store (Applications.prefixResources p rolesArray)
                (Rbac.roleRules st) role' al' Hrole' Hal') as (rules & Hrn & Hrule).
    exists rules, (Rbac.toRule al'). simpl. rewrite <- Hname.
    split; [exact Hrn | split; [exact Hrule|]].
    unfold Rbac.grants, Rbac.toRule. simpl. rewrite Hres, Hperm. split.
    - apply elem_of_list_to_set. apply list_elem_of_fmap. now exists s.
    - left. now apply elem_of_list_to_set. }
  split; [|split; [reflexivity | split; [exact Hstored|]]].
  - unfold Applications.rolesTask. now rewrite Hroles, Hp.
  - intros c req a h st'' Hres <- <- Hassign Hacl.
    rewrite (handler_resolved c req p a h Hres).
    change (Proxy.queries (FindByPrefix p :: ?l)) with (Proxy.queries l).
    rewrite authorize_queries. split; [reflexivity|].
    unfold Proxy.decision. rewrite Hacl. f_equal.
    destruct Hstored as (rules & rule & Hrn & Hrule & Hgr).
    destruct (assignRoles_holds st' st'' _ _ Hassign) as (Hsame & held & Hu & Hheld).
    apply (isAllowed_intro st'' (username req) (roles role) _ _ held rules rule);
      auto.
    + now rewrite Hsame.
    + apply (ruleMatches_granted rule (p ++ params_0 req)); auto.
Qed.

End RegisteredRoles.

Lemma registered_rule_matches_request_witness :
  Proxy.queries (Proxy.handler (Sample.live true) (Sample.get "/route1" None))
  = [("user_asd", "gleaner/route1", "get")]
  /\ Proxy.decision (Sample.live true) (Sample.get "/route1" None) "gleaner"
     = inr true.
Proof.
  destruct (registered_rule_matches_request (Store.model Sample.anyHost)
              Sample.gleanerBody Sample.emptyDb
              (Store.Db [Application "app-0" None "gleaner" (Some "localhost:3309")
                                     "2015-07-06T09:03:52.636Z"]
                        1 "2015-07-06T09:03:52.636Z")
              Sample.emptyAcl
              (Rbac.State
                 {["gleanerUser" :=
                     [Rbac.AllowRule (list_to_set ["gleaner/route1"])
                                     (list_to_set ["post"; "get"; "delete"; "put"])]]}
                 ∅)
              (Applications.Summary "app-0" "gleaner" (Some "localhost:3309")
                                    "2015-07-06T09:03:52.636Z")
              "gleaner" Sample.gleanerRoles
              (RoleSpec "gleanerUser"
                 [Allow ["/route1"] ["post"; "get"; "delete"; "put"]])
              (Allow ["/route1"] ["post"; "get"; "delete"; "put"])
              "/route1" "get")
    as (_ & _ & _ & H).
  - vm_compute. reflexivity.
  - reflexivity.
  - reflexivity.
  - apply list_elem_of_here.
  - apply list_elem_of_here.
  - apply list_elem_of_here.
  - apply list_elem_of_further, list_elem_of_here.
  - eapply (H (Sample.live true) (Sample.get "/route1" None)
              (Application "app-0" None "gleaner" (Some "localhost:3309")
                           "2015-07-06T09:03:52.636Z")
              "localhost:3309"
              (Rbac.State
                 {["gleanerUser" :=
                     [Rbac.AllowRule (list_to_set ["gleaner/route1"])
                                     (list_to_set ["post"; "get"; "delete"; "put"])]]}
                 {["user_asd" := {["gleanerUser"]}]})).
    + repeat split; discriminate.
    + reflexivity.
    + reflexivity.
    + vm_compute. reflexivity.
    + vm_compute. reflexivity.
Defined.

(** ** The string helpers of the proxy route *)

Section HelperFacts.

Lemma substring_append_r (t str : string) :
  substring (String.length t) (String.length str) (t ++ str) = str.
Proof.
  induction t as [|ch t IH]; rewrite ?append_cons, ?append_empty_l; simpl.
  - apply substring_all. lia.
  - exact IH.
Qed.

(** [slice(-n)] keeps the last [n] code units, or all of them. *)
Lemma slice_last (s : string) (n : nat) :
  (0 < n)%nat ->
  Js.slice s (- Z.of_nat n) None
  = substring (String.length s - n) (Init.Nat.min n (String.length s)) s.
Proof.
  intros Hn. unfold Js.slice.
  destruct (Z.ltb_spec (- Z.of_nat n) 0) as [_|?]; [|lia].
  f_equal; lia.
Qed.

(** X1: [startsWith] is the prefix test: it holds exactly of the sources
    that are [str] followed by something; it holds of every source for
    the empty [str], and never of a source shorter than [str]. *)
Theorem startsWith_is_prefix (source str : string) :
  (Proxy.startsWith source str = true <-> exists rest, source = str ++ rest)
  /\ Proxy.startsWith source "" = true
  /\ ((String.length source < String.length str)%nat ->
      Proxy.startsWith source str = false).
Proof.
  split; [apply startsWith_spec | split].
  - apply startsWith_spec. now exists source.
  - intros Hlt. destruct (Proxy.startsWith source str) eqn:Hs; [|reflexivity].
    apply startsWith_spec in Hs as [rest ->]. rewrite length_append in Hlt. lia.
Qed.

(** X2: [endsWith] is the suffix test for a [str] that is not empty; for
    the empty [str] it holds only of the empty source, because
    [slice(-0)] is the whole source. *)
Theorem endsWith_is_suffix (source str : string) :
  (str <> "" ->
   (Proxy.endsWith source str = true <-> exists t, source = t ++ str))
  /\ (Proxy.endsWith source "" = true <-> source = "").
Proof.
  split.
  - intros Hne. unfold Proxy.endsWith.
    assert (Hpos : (0 < String.length str)%nat)
      by (destruct str; [contradiction | simpl; lia]).
    rewrite slice_last by exact Hpos. rewrite String.eqb_eq. split.
    + intros Hs.
      destruct (Nat.le_gt_cases (String.length str) (String.length source))
        as [Hle|Hgt].
      * exists (substring 0 (String.length source - String.length str) source).
        rewrite Nat.min_l in Hs by exact Hle.
        pose proof (substring_split source
                      (String.length source - String.length str)) as Hsplit.
        replace (String.length source - (String.length source - String.length str))%nat
          with (String.length str) in Hsplit by lia.
        rewrite Hs in Hsplit. apply Hsplit. lia.
      * rewrite Nat.min_r in Hs by lia.
        replace (String.length source - String.length str)%nat with 0%nat in Hs by lia.
        rewrite substring_all in Hs by lia.
        apply (f_equal String.length) in Hs. exfalso. lia.
    + intros [t ->]. rewrite length_append.
      replace (String.length t + String.length str - String.length str)%nat
        with (String.length t) by lia.
      rewrite Nat.min_l by lia. apply substring_append_r.
  - unfold Proxy.endsWith, Js.slice. simpl.
    rewrite Z.min_l by lia. rewrite Z.sub_0_r, Nat2Z.id.
    rewrite substring_all by lia. apply String.eqb_eq.
Qed.

Lemma startsWith_http_slash (h : string) :
  Proxy.startsWith (h ++ "/") "http" = Proxy.startsWith h "http".
Proof.
  destruct (Proxy.startsWith h "http") eqn:Hs.
  - apply startsWith_spec in Hs as [rest ->]. apply startsWith_spec.
    exists (rest ++ "/"). apply append_assoc.
  - destruct (Proxy.startsWith (h ++ "/") "http") eqn:Hs'; [|reflexivity].
    apply startsWith_spec in Hs' as [rest Hrest].
    assert (Hh : exists r, h = "http" ++ r).
    { destruct h as [|a [|b [|c [|d h]]]];
        rewrite ?append_cons, ?append_empty_l in Hrest; try discriminate.
      injection Hrest as -> -> -> -> _. now exists h. }
    apply startsWith_spec in Hh. congruence.
Qed.

Lemma endsWith_slash_after (pre h : string) :
  h <> "" -> Proxy.endsWith (pre ++ h) "/" = Proxy.endsWith h "/".
Proof.
  intros Hne. destruct (snoc_cases h) as [->|(t & ch & ->)]; [contradiction|].
  rewrite <- append_assoc.
  destruct (Proxy.endsWith (t ++ String ch "") "/") eqn:He.
  - apply endsWith_slash_spec in He as [u Hu]. apply snoc_inj in Hu as [_ ->].
    apply endsWith_slash_spec. now exists (pre ++ t).
  - destruct (Proxy.endsWith ((pre ++ t) ++ String ch "") "/") eqn:He';
      [|reflexivity].
    apply endsWith_slash_spec in He' as [u Hu]. apply snoc_inj in Hu as [_ ->].
    assert (Proxy.endsWith (t ++ "/") "/" = true)
      by (apply endsWith_slash_spec; now exists t).
    congruence.
Qed.

(** X3: a host and the same host with one '/' after it are normalized to
    the same string, so both spellings of a registered host forward to
    the same target. *)
Theorem trailing_slash_same_host (h : string) :
  h <> "" -> Proxy.endsWith h "/" = false ->
  Proxy.normalizeHost (h ++ "/") = Proxy.normalizeHost h
  /\ forall sub q, Proxy.target (Proxy.normalizeHost (h ++ "/")) sub q
                   = Proxy.target (Proxy.normalizeHost h) sub q.
Proof.
  intros Hne He.
  assert (Heq : Proxy.normalizeHost (h ++ "/") = Proxy.normalizeHost h).
  { unfold Proxy.normalizeHost. rewrite startsWith_http_slash.
    destruct (Proxy.startsWith h "http"); simpl negb; cbv iota.
    - rewrite He.
      assert (Hs : Proxy.endsWith (h ++ "/") "/" = true)
        by (apply endsWith_slash_spec; now exists h).
      rewrite Hs. apply (slice_drop_last h "/").
    - rewrite (endsWith_slash_after "http://" h Hne), He.
      rewrite <- append_assoc.
      assert (Hs : Proxy.endsWith (("http://" ++ h) ++ "/") "/" = true)
        by (apply endsWith_slash_spec; now exists ("http://" ++ h)).
      rewrite Hs. apply (slice_drop_last ("http://" ++ h) "/"). }
  split; [exact Heq | intros sub q; now rewrite Heq].
Qed.

End HelperFacts.

Lemma trailing_slash_same_host_witness :
  Proxy.normalizeHost ("localhost:3309" ++ "/") = Proxy.normalizeHost "localhost:3309".
Proof.
  apply (trailing_slash_same_host "localhost:3309"); [discriminate | reflexivity].
Defined.

(** ** Every run of the proxy route *)

Section EveryRun.

Variables (c : collaborators) (req : request).

(** The runs of the handler, one case for each way through it. *)
Ltac each_run :=
  unfold Observe.outcome, Proxy.handler, Proxy.authorize, Proxy.debug, Js.truthy;
  destruct (params_prefix req) as [pfx|] eqn:Hprefix;
    [destruct (String.eqb_spec pfx "") as [Hp|Hp]|]; simpl negb; cbv iota;
    simpl default;
    [ | destruct (findByPrefix c pfx) as [err|[app|]] eqn:Hfind;
        [ | destruct (host app) as [hst|] eqn:Hhost;
            [destruct (String.eqb_spec hst "") as [Hh|Hh]|]; simpl negb; cbv iota;
            simpl default;
            [ | destruct (isAllowed c (username req) (pfx ++ params_0 req)
                            (Js.toLowerCase (method req)))
                  as [err|[|]] eqn:Hacl;
                destruct (logger c);
                [ | | destruct (proxy_web c _) as [err|] eqn:Hweb
                  | destruct (proxy_web c _) as [err|] eqn:Hweb | | ] | ] | ] | ].

(** X4: a request without a prefix, and a request whose prefix belongs to
    no application, are answered with status 400 and nothing else is
    done: the registry is not asked without a prefix, and the acl and
    the proxy are not reached without an application. *)
Theorem no_application_is_400 :
  (Js.truthy (params_prefix req) = false ->
   Proxy.handler c req = [Next (Error "You must provide a valid prefix!" (Some 400))])
  /\ (forall p, params_prefix req = Some p -> p <> "" ->
      findByPrefix c p = inr None ->
      Proxy.handler c req
      = [FindByPrefix p;
         Next (Error ("No application found with the given prefix: " ++ p)
                     (Some 400))]).
Proof.
  split.
  - intros Hfalse. unfold Proxy.handler. now rewrite Hfalse.
  - intros p Hp Hne Hfind. unfold Proxy.handler.
    rewrite Hp, (truthy_present p Hne). simpl. now rewrite Hfind.
Qed.


(** X6: every run ends in exactly one of two ways: [next] gets one
    error, or the proxy gets one target and reports no error; [next] is
    never called twice, and the proxy and the acl are never used
    twice. *)
Theorem one_answer :
  (length (Proxy.failures (Proxy.handler c req)) <= 1)%nat
  /\ (length (Proxy.forwarded (Proxy.handler c req)) <= 1)%nat
  /\ (length (Proxy.queries (Proxy.handler c req)) <= 1)%nat
  /\ (Proxy.failures (Proxy.handler c req) = [] <->
      exists t, Proxy.forwarded (Proxy.handler c req) = [t] /\ proxy_web c t = None).
Proof.
  each_run; simpl; repeat split; try lia; try discriminate;
    try (intros (t & [= <-] & Hnone); congruence);
    try (intros (t & [=] & _));
    try (intros _; eexists; split; [reflexivity | assumption]).
Qed.

(** X7: whether a logger is present changes nothing but the log: what
    [next] gets, what the proxy gets and what the acl is asked are the
    same with and without it. *)
Theorem logger_changes_nothing (present : bool) :
  Observe.outcome (Proxy.handler (Observe.withLogger c present) req)
  = Observe.outcome (Proxy.handler c req).
Proof.
  unfold Observe.outcome, Proxy.handler, Proxy.authorize, Proxy.debug.
  simpl findByPrefix. simpl isAllowed. simpl proxy_web. simpl logger.
  destruct (Js.truthy (params_prefix req)); [|reflexivity].
  simpl. destruct (findByPrefix c _) as [e|[a|]]; try reflexivity.
  destruct (Js.truthy (host a)); [|reflexivity].
  simpl. destruct (isAllowed c _ _ _) as [e|[|]]; try reflexivity;
    destruct present, (logger c); simpl;
    try destruct (proxy_web c _); reflexivity.
Qed.

(** X8: an error of the registry or of the acl reaches [next] as it is,
    and every other error the route gives to [next] has status 400, 403
    or 503. *)
Theorem failure_statuses (e : error) :
  e ∈ Proxy.failures (Proxy.handler c req) ->
  (exists p, findByPrefix c p = inl e)
  \/ (exists u r a, isAllowed c u r a = inl e)
  \/ status e = Some 400 \/ status e = Some 403 \/ status e = Some 503.
Proof.
  each_run; simpl;
    try (intros Hin; now apply elem_of_nil in Hin);
    intros Hin; apply list_elem_of_singleton in Hin; subst;
    first [ left; eexists; eassumption
          | right; left; do 3 eexists; eassumption
          | right; right; simpl; tauto ].
Qed.

(** X9: whatever the request, the acl is asked at most about the
    resource that is the prefix followed by the sub-path, and the action
    it is asked about has no upper-case ASCII letter and is as long as
    the method. *)
Theorem query_shape (u r a : string) :
  (u, r, a) ∈ Proxy.queries (Proxy.handler c req) ->
  u = username req
  /\ (exists p, params_prefix req = Some p /\ r = p ++ params_0 req)
  /\ a = Js.toLowerCase (method req)
  /\ forallb (fun ch => negb (Observe.isUpperCase ch)) (list_ascii_of_string a) = true
  /\ String.length a = String.length (method req).
Proof.
  assert (Hlow : forall s,
             forallb (fun ch => negb (Observe.isUpperCase ch))
                     (list_ascii_of_string (Js.toLowerCase s)) = true
             /\ String.length (Js.toLowerCase s) = String.length s).
  { induction s as [|ch s [IH1 IH2]]; [now split|]. simpl. rewrite IH1, IH2.
    split; [|reflexivity]. rewrite andb_true_r.
    destruct ch as [[] [] [] [] [] [] [] []]; reflexivity. }
  each_run; simpl;
    try (intros Hin; now apply elem_of_nil in Hin);
    intros Hin; apply list_elem_of_singleton in Hin; injection Hin as -> -> ->;
    (split; [reflexivity
            | split; [now exists pfx | split; [reflexivity | apply Hlow]]]).
Qed.

End EveryRun.


Lemma failure_statuses_witness :
  (exists p, findByPrefix (Sample.live false) p
             = inl (Error "connect ECONNREFUSED 127.0.0.1:3309" (Some 503)))
  \/ (exists u r a, isAllowed (Sample.live false) u r a
                    = inl (Error "connect ECONNREFUSED 127.0.0.1:3309" (Some 503)))
  \/ Some 503 = Some 400 \/ Some 503 = Some 403 \/ Some 503 = Some 503.
Proof.
  apply (failure_statuses (Sample.live false) (Sample.get "/route1" None)
           (Error "connect ECONNREFUSED 127.0.0.1:3309" (Some 503))).
  vm_compute. apply list_elem_of_here.
Defined.

Lemma query_shape_witness :
  "user_asd" = "user_asd"
  /\ (exists p, Some "gleaner" = Some p /\ "gleaner/route1" = p ++ "/route1")
  /\ "get" = Js.toLowerCase "GET"
  /\ forallb (fun ch => negb (Observe.isUpperCase ch)) (list_ascii_of_string "get") = true
  /\ String.length "get" = String.length "GET".
Proof.
  apply (query_shape (Sample.live true) (Sample.get "/route1" None)
           "user_asd" "gleaner/route1" "get").
  vm_compute. apply list_elem_of_here.
Defined.

(** ** Every registration and every update *)

Section EveryRegistration.

Context {DB ACL : Type} (M : ApplicationModel DB) (A : Acl ACL).

(** X10: whatever fails in a registration (validation, the creation of
    the application, the granting of the roles), the error given to
    [next] has status 400, also when the model or the acl had given it
    another status. *)
Theorem post_error_is_400 (body : Applications.postBody) (db db' : DB)
    (acl acl' : ACL) (e : error) :
  Applications.post M A body db acl = (NextErr e, db', acl') ->
  status e = Some 400.
Proof.
  unfold Applications.post.
  destruct (Applications.validate body) as [err|]; [now intros [= <- _ _]|].
  destruct (create M _ _ db) as [[err|a] d1]; [now intros [= <- _ _]|].
  destruct (Applications.rolesTask A body acl) as [[err|] acl1];
    [now intros [= <- _ _] | discriminate].
Qed.

(** X11: a registration changes the acl only after the application has
    been created: when the body is refused or the creation fails, the acl
    is as before and the answer is an error; a refused body leaves the
    store as before as well. *)
Theorem post_grants_after_create (body : Applications.postBody) (db db' : DB)
    (acl acl' : ACL) (r : reply Applications.summary) :
  Applications.post M A body db acl = (r, db', acl') ->
  (Applications.validate body <> None ->
   db' = db /\ acl' = acl /\ exists e, r = NextErr e)
  /\ ((exists e, fst (create M (default "" (Applications.body_prefix body))
                              (default "" (Applications.body_host body)) db) = inl e) ->
      acl' = acl /\ exists e, r = NextErr e)
  /\ (Applications.body_roles body = None -> acl' = acl).
Proof.
  unfold Applications.post, Applications.rolesTask.
  destruct (Applications.validate body) as [err|].
  - intros [= <- <- <-]. repeat split; eauto.
  - destruct (create M _ _ db) as [[err|a] d1]; simpl.
    + intros [= <- <- <-]. repeat split; eauto. congruence.
    + destruct (Applications.body_roles body) as [rolesArray|].
      * destruct (acl_allow A _ acl) as [[err|] acl1]; intros [= <- <- <-];
          (split; [congruence | split; [intros [e [=]] | discriminate]]).
      * intros [= <- <- <-].
        split; [congruence | split; [intros [e [=]] | reflexivity]].
Qed.

(** X13: an update looks only at the truthy fields of the body: two
    bodies that differ only in fields that are absent or empty in both
    are answered alike, so an update cannot empty a name, a prefix or a
    host. *)
Theorem put_ignores_empty_fields (id : option string)
    (b b' : Applications.putBody) (db : DB) :
  Applications.keep (Applications.put_name b) = Applications.keep (Applications.put_name b') ->
  Applications.keep (Applications.put_prefix b) = Applications.keep (Applications.put_prefix b') ->
  Applications.keep (Applications.put_host b) = Applications.keep (Applications.put_host b') ->
  Applications.put M id b db = Applications.put M id b' db
  /\ Applications.keep (Some "") = None.
Proof.
  intros Hn Hp Hh. unfold Applications.put, Applications.update.
  now rewrite Hn, Hp, Hh.
Qed.

(** X14: every error an update gives to [next] has status 400 or 403,
    and an update without an id does not reach the store. *)
Theorem put_error_statuses (id : option string) (body : Applications.putBody)
    (db db' : DB) (e : error) :
  Applications.put M id body db = (NextErr e, db') ->
  (status e = Some 400 \/ status e = Some 403)
  /\ (Js.truthy id = false -> db' = db /\ status e = Some 400).
Proof.
  unfold Applications.put. destruct (Js.truthy id); simpl.
  - destruct (findOneAndUpdate M _ _ _ db) as [[err|[a|]] d1]; intros [= <- <-];
      (split; [simpl; tauto | discriminate]).
  - intros [= <- <-]. split; [now left | now split].
Qed.

End EveryRegistration.

(** ** The list, get and delete routes *)

Section ReadRoutes.

Context {DB Page : Type} (P : ApplicationPages DB Page) (Q : ApplicationQueries DB).

(** X15: the list route never asks for a page size of 0, a page 0 or an
    empty sort: an absent or zero limit becomes 20, an absent or zero
    page becomes 1, an absent or empty sort becomes "_id"; a value that
    is given and truthy is passed on as it is, and the query is always
    empty. *)
Theorem list_defaults (body : Routes.listBody) :
  let q := Routes.pagedQueryOf body in
  Routes.q_limit q <> 0 /\ Routes.q_page q <> 0 /\ Routes.q_sort q <> ""
  /\ Routes.q_query q = []
  /\ (forall n, Routes.limit body = Some n -> n <> 0 -> Routes.q_limit q = n)
  /\ (forall n, Routes.page body = Some n -> n <> 0 -> Routes.q_page q = n)
  /\ (forall s, Routes.sort body = Some s -> s <> "" -> Routes.q_sort q = s)
  /\ (Routes.limit body = Some 0 -> Routes.q_limit q = 20)
  /\ (Routes.page body = Some 0 -> Routes.q_page q = 1).
Proof.
  unfold Routes.pagedQueryOf, Routes.orNumber, Routes.orString, Js.truthy. simpl.
  repeat split.
  - destruct (Routes.limit body) as [n|]; [|discriminate].
    destruct (Z.eqb_spec n 0); [discriminate | assumption].
  - destruct (Routes.page body) as [n|]; [|discriminate].
    destruct (Z.eqb_spec n 0); [discriminate | assumption].
  - destruct (Routes.sort body) as [s|]; [|discriminate].
    destruct (String.eqb_spec s ""); simpl; [discriminate | assumption].
  - intros n -> Hn. destruct (Z.eqb_spec n 0); [contradiction | reflexivity].
  - intros n -> Hn. destruct (Z.eqb_spec n 0); [contradiction | reflexivity].
  - intros s -> Hs. destruct (String.eqb_spec s ""); [contradiction | reflexivity].
  - intros ->. reflexivity.
  - intros ->. reflexivity.
Qed.

(** X16: the list, get and delete routes give an error of the model to
    [next] as it is, status included, where the update route answers
    403; the only error they make themselves is the one with status 400
    for an application that does not exist. *)
Theorem read_routes_errors (body : Routes.listBody) (id : option string) (db : DB)
    (e : error) :
  (Routes.getApplications P body db = NextErr e ->
   exists q f r s l p, pagedFind P q f r s l p db = inl e)
  /\ (Routes.getApplication Q id db = NextErr e ->
      findById Q (Routes.orString id "") db = inl e
      \/ e = Error "No application with the given application id exists." (Some 400))
  /\ (forall db', Routes.deleteApplication Q id db = (NextErr e, db') ->
      findOneAndRemove Q (Routes.orString id "") db = (inl e, db')
      \/ e = Error "No application with the given application id exists." (Some 400)).
Proof.
  unfold Routes.getApplications, Routes.getApplication, Routes.deleteApplication.
  repeat split.
  - destruct (pagedFind P _ _ _ _ _ _ db) as [err|results] eqn:Hp; [|discriminate].
    intros [= <-]. eauto 10.
  - destruct (findById Q _ db) as [err|[a|]]; [|discriminate|];
      intros [= <-]; auto.
  - intros db'. destruct (findOneAndRemove Q _ db) as [[err|[a|]] d1];
      [|discriminate|]; intros [= <- <-]; auto.
Qed.

End ReadRoutes.

(** ** Routes over the registry *)

Section OverRegistry.

Variable isURL : string -> bool.

Lemma objectId_not_empty (k : nat) : Store.objectId k <> "".
Proof. discriminate. Qed.

Lemma objectId_inj (j k : nat) : Store.objectId j = Store.objectId k -> j = k.
Proof.
  unfold Store.objectId. intros H. apply String.app_inj in H.
  now apply pretty_nat_inj in H.
Qed.

Lemma allocated_ids (d : Store.db) (a : application) :
  Registry.allocated d = true -> In a (Store.docs d) ->
  exists k, (k < Store.serial d)%nat /\ _id a = Store.objectId k.
Proof.
  unfold Registry.allocated. rewrite forallb_forall. intros Hall Hin.
  specialize (Hall a Hin). apply existsb_exists in Hall as (k & Hk & Heq).
  apply in_seq in Hk. apply String.eqb_eq in Heq. exists k. split; [lia | exact Heq].
Qed.

Lemma allocated_others (d : Store.db) :
  Registry.allocated d = true -> Store.others "" d = Store.docs d.
Proof.
  intros Hall. unfold Store.others. apply forallb_filter_id, forallb_forall.
  intros a Hin. destruct (allocated_ids d a Hall Hin) as (k & _ & ->).
  destruct (String.eqb_spec (Store.objectId k) ""); [discriminate | reflexivity].
Qed.

Lemma find_last {X : Type} (f : X -> bool) (l : list X) (x : X) :
  List.find f l = None -> f x = true -> List.find f (l ++ [x]) = Some x.
Proof.
  induction l as [|y l IH]; simpl; intros Hnone Hx.
  - now rewrite Hx.
  - destruct (f y); [discriminate | auto].
Qed.

Lemma find_not_exists {X : Type} (f : X -> bool) (l : list X) :
  existsb f l = false -> List.find f l = None.
Proof.
  induction l as [|y l IH]; simpl; [reflexivity|].
  destruct (f y); [discriminate | auto].
Qed.

Lemma byId_unallocated (d : Store.db) :
  Registry.allocated d = true -> Store.byId (Store.objectId (Store.serial d)) d = None.
Proof.
  intros Hall. unfold Store.byId.
  destruct (List.find _ (Store.docs d)) as [a|] eqn:Hfind; [|reflexivity].
  apply find_some in Hfind as [Hin Heq]. apply String.eqb_eq in Heq.
  destruct (allocated_ids d a Hall Hin) as (k & Hk & Hid).
  rewrite Hid in Heq. apply objectId_inj in Heq. lia.
Qed.

(** What a creation that succeeds does to the store. *)
Lemma create_shape (p h : string) (d d' : Store.db) (a : application) :
  Store.create p h d = (inr a, d') ->
  a = Application (Store.objectId (Store.serial d)) None p (Some h) (Store.now d)
  /\ d' = Store.Db (Store.docs d ++ [a]) (S (Store.serial d)) (Store.now d)
  /\ Store.prefixTaken "" p d = false /\ Store.hostTaken "" (Some h) d = false.
Proof.
  unfold Store.create.
  destruct (Store.prefixTaken "" p d) eqn:Hp; [discriminate|].
  destruct (Store.hostTaken "" (Some h) d) eqn:Hh; [discriminate|].
  simpl. intros [= <- <-]. repeat split.
Qed.

Lemma create_allocated (p h : string) (d d' : Store.db) (a : application) :
  Registry.allocated d = true -> Store.create p h d = (inr a, d') ->
  Registry.allocated d' = true.
Proof.
  intros Hall Hc. destruct (create_shape p h d d' a Hc) as (-> & -> & _).
  unfold Registry.allocated. cbn [Store.docs Store.serial].
  rewrite forallb_app. apply andb_true_iff. split.
  - apply forallb_forall. intros b Hin.
    destruct (allocated_ids d b Hall Hin) as (k & Hk & ->).
    apply existsb_exists. exists k. split; [apply in_seq; lia | apply String.eqb_refl].
  - cbn [forallb _id]. rewrite andb_true_r. apply existsb_exists.
    exists (Store.serial d).
    split; [apply in_seq; lia | apply String.eqb_refl].
Qed.

(** X17: on the registry, a registration that answers can be read back:
    the get route, asked for the id of the answer, answers with the
    application that has the posted prefix and the posted host and no
    name; and the ids of the store stay the ones it has given out. *)
Theorem register_then_get {ACL : Type} (A : Acl ACL)
    (body : Applications.postBody) (d d' : Store.db) (acl acl' : ACL)
    (s : Applications.summary) :
  Registry.allocated d = true ->
  Applications.post (Store.model isURL) A body d acl = (Json s, d', acl') ->
  exists p h,
    Applications.body_prefix body = Some p /\ Applications.body_host body = Some h
    /\ Routes.getApplication Registry.queries (Some (Applications.sum_id s)) d'
       = Json (Application (Applications.sum_id s) None p (Some h)
                           (Applications.sum_timeCreated s))
    /\ Registry.allocated d' = true.
Proof.
  intros Hall Hpost.
  destruct (post_answers _ A body d d' acl acl' s Hpost)
    as (p & h & a & Hp & _ & Hh & _ & Hcreate & _ & ->).
  simpl in Hcreate. exists p, h. split; [exact Hp | split; [exact Hh | split]].
  - destruct (create_shape p h d d' a Hcreate) as (-> & -> & _). simpl.
    unfold Routes.getApplication, Routes.orString. simpl.
    unfold Registry.findById, Store.byId. simpl.
    rewrite (find_last _ (Store.docs d)); [reflexivity | | apply String.eqb_refl].
    apply (byId_unallocated d Hall).
  - exact (create_allocated p h d d' a Hall Hcreate).
Qed.

(** X18: on the registry, an application that was registered is the one
    the dispatcher finds for its prefix, with the posted host, and an
    allowed request under that prefix is forwarded to the normalized
    posted host followed by the sub-path and the query. *)
Theorem register_then_dispatch {ACL : Type} (A : Acl ACL)
    (body : Applications.postBody) (d d' : Store.db) (acl acl' : ACL)
    (s : Applications.summary) (p h : string) (c : collaborators) (req : request) :
  Registry.allocated d = true ->
  Applications.post (Store.model isURL) A body d acl = (Json s, d', acl') ->
  Applications.body_prefix body = Some p -> Applications.body_host body = Some h ->
  findByPrefix c p = inr (Registry.findByPrefix p d') ->
  params_prefix req = Some p ->
  exists a,
    Registry.findByPrefix p d' = Some a /\ _id a = Applications.sum_id s
    /\ Proxy.resolves c req p a h
    /\ (Proxy.decision c req p = inr true ->
        Proxy.forwarded (Proxy.handler c req)
        = [Proxy.normalizeHost h ++ params_0 req ++ default "" (search req)]).
Proof.
  intros Hall Hpost Hp Hh Hfind Hreq.
  destruct (post_answers _ A body d d' acl acl' s Hpost)
    as (p0 & h0 & a & Hp0 & Hpne & Hh0 & Hhne & Hcreate & _ & ->).
  rewrite Hp in Hp0. rewrite Hh in Hh0. injection Hp0 as <-. injection Hh0 as <-.
  simpl in Hcreate.
  destruct (create_shape p h d d' a Hcreate) as (Ha & Hd & Htaken & _).
  assert (Hfound : Registry.findByPrefix p d' = Some a).
  { rewrite Hd. unfold Registry.findByPrefix. simpl. apply find_last.
    - apply find_not_exists. unfold Store.prefixTaken in Htaken.
      now rewrite (allocated_others d Hall) in Htaken.
    - rewrite Ha. apply String.eqb_refl. }
  assert (Hres : Proxy.resolves c req p a h).
  { unfold Proxy.resolves. rewrite Hfind, Hfound, Ha. repeat split; auto. }
  exists a. split; [exact Hfound | split; [reflexivity | split; [exact Hres|]]].
  intros Hdec. rewrite (handler_resolved c req p a h Hres).
  change (Proxy.forwarded (FindByPrefix p :: ?l)) with (Proxy.forwarded l).
  destruct (authorize_allowed c req p h Hdec) as [-> _].
  now rewrite target_concat.
Qed.

Lemma created_then_taken (p h p2 h2 : string) (d d' : Store.db) (a : application) :
  Registry.allocated d = true -> Store.create p h d = (inr a, d') ->
  p2 = p \/ h2 = h ->
  Store.create p2 h2 d' = (inl Store.duplicateKey, d').
Proof.
  intros Hall Hcreate Hsame.
  pose proof (create_allocated p h d d' a Hall Hcreate) as Hall'.
  destruct (create_shape p h d d' a Hcreate) as (Ha & Hd & _).
  assert (Hdup : Store.prefixTaken "" p2 d' || Store.hostTaken "" (Some h2) d' = true).
  { unfold Store.prefixTaken, Store.hostTaken.
    rewrite (allocated_others d' Hall'). rewrite Hd. cbn [Store.docs].
    rewrite !existsb_app. cbn [existsb]. rewrite Ha. cbn [prefix host].
    destruct Hsame as [-> | ->].
    - rewrite String.eqb_refl. now rewrite !orb_true_r.
    - rewrite bool_decide_eq_true_2 by reflexivity. now rewrite !orb_true_r. }
  unfold Store.create. now rewrite Hdup.
Qed.

(** X12: on the registry, a registration whose roles cannot be granted
    is answered with that error and status 400, but the application it
    created stays: the dispatcher finds it for its prefix, the get route
    returns it, and the same registration sent again is refused as a
    duplicate with status 400. *)
Theorem failed_roles_keep_application {ACL : Type} (A : Acl ACL)
    (body : Applications.postBody) (d d1 : Store.db) (acl acl1 : ACL)
    (a : application) (e : error) :
  Registry.allocated d = true ->
  Applications.validate body = None ->
  Store.create (default "" (Applications.body_prefix body))
               (default "" (Applications.body_host body)) d = (inr a, d1) ->
  Applications.rolesTask A body acl = (Some e, acl1) ->
  Applications.post (Store.model isURL) A body d acl
  = (NextErr (Error (message e) (Some 400)), d1, acl1)
  /\ Registry.findByPrefix (default "" (Applications.body_prefix body)) d1 = Some a
  /\ Routes.getApplication Registry.queries (Some (_id a)) d1 = Json a
  /\ Applications.post (Store.model isURL) A body d1 acl1
     = (NextErr (Error "E11000 duplicate key error" (Some 400)), d1, acl1).
Proof.
  intros Hall Hvalid Hcreate Hroles.
  destruct (create_shape _ _ d d1 a Hcreate) as (Ha & Hd & Htaken & _).
  split; [|split; [|split]].
  - unfold Applications.post. rewrite Hvalid. simpl create.
    now rewrite Hcreate, Hroles.
  - rewrite Hd. unfold Registry.findByPrefix. cbn [Store.docs]. apply find_last.
    + apply find_not_exists. unfold Store.prefixTaken in Htaken.
      now rewrite (allocated_others d Hall) in Htaken.
    + rewrite Ha. apply String.eqb_refl.
  - assert (Hid : _id a = Store.objectId (Store.serial d)) by now rewrite Ha.
    unfold Routes.getApplication, Routes.orString, Js.truthy. rewrite Hid.
    simpl. unfold Registry.findById, Store.byId. rewrite Hd. cbn [Store.docs].
    rewrite (find_last _ (Store.docs d) a); [reflexivity | | ].
    + apply (byId_unallocated d Hall).
    + rewrite Hid. apply String.eqb_refl.
  - unfold Applications.post. rewrite Hvalid. simpl create.
    rewrite (created_then_taken _ _ _ _ d d1 a Hall Hcreate); [reflexivity|].
    now left.
Qed.

(** X19: on the registry, a prefix or a host that a registration has
    taken cannot be registered again: the second registration is
    answered with status 400 and leaves the store and the acl as they
    were. *)
Theorem register_twice_is_400 {ACL : Type} (A : Acl ACL)
    (body body2 : Applications.postBody) (d d' : Store.db) (acl acl' acl2 : ACL)
    (s : Applications.summary) :
  Registry.allocated d = true ->
  Applications.post (Store.model isURL) A body d acl = (Json s, d', acl') ->
  Applications.validate body2 = None ->
  Applications.body_prefix body2 = Applications.body_prefix body
  \/ Applications.body_host body2 = Applications.body_host body ->
  Applications.post (Store.model isURL) A body2 d' acl2
  = (NextErr (Error "E11000 duplicate key error" (Some 400)), d', acl2).
Proof.
  intros Hall Hpost Hvalid Hsame.
  destruct (post_answers _ A body d d' acl acl' s Hpost)
    as (p & h & a & Hp & _ & Hh & _ & Hcreate & _ & _).
  simpl in Hcreate. unfold Applications.post. rewrite Hvalid. simpl create.
  rewrite (created_then_taken p h _ _ d d' a Hall Hcreate); [reflexivity|].
  destruct Hsame as [-> | ->]; [left; now rewrite Hp | right; now rewrite Hh].
Qed.

End OverRegistry.

Section RegistryRoundTrips.

Variable isURL : string -> bool.

Lemma orString_id (id : string) : Routes.orString (Some id) "" = id.
Proof.
  unfold Routes.orString, Js.truthy.
  destruct (String.eqb_spec id "") as [->|_]; reflexivity.
Qed.

Lemma byId_without (id : string) (d : Store.db) :
  Store.byId id (Registry.without id d) = None.
Proof.
  unfold Store.byId, Registry.without. cbn [Store.docs].
  induction (Store.docs d) as [|a l IH]; simpl; [reflexivity|].
  destruct (String.eqb_spec (_id a) id) as [Heq|Hne]; simpl; [exact IH|].
  destruct (String.eqb_spec (_id a) id); [contradiction | exact IH].
Qed.

Lemma byId_without_other (id id' : string) (d : Store.db) :
  id' <> id -> Store.byId id' (Registry.without id d) = Store.byId id' d.
Proof.
  intros Hne. unfold Store.byId, Registry.without. cbn [Store.docs].
  induction (Store.docs d) as [|a l IH]; simpl; [reflexivity|].
  destruct (String.eqb_spec (_id a) id) as [Heq|Hneq]; simpl.
  - destruct (String.eqb_spec (_id a) id'); [congruence | exact IH].
  - destruct (String.eqb_spec (_id a) id'); [reflexivity | exact IH].
Qed.

Lemma byId_replace (id : string) (a a' : application) (d : Store.db) :
  Store.byId id d = Some a -> _id a' = id ->
  Store.byId id (Store.replace a' d) = Some a'.
Proof.
  intros Hfind <-. unfold Store.byId, Store.replace in *. cbn [Store.docs].
  induction (Store.docs d) as [|b l IH]; simpl in *; [discriminate|].
  destruct (String.eqb_spec (_id b) (_id a')) as [Heq|Hne].
  - now rewrite String.eqb_refl.
  - destruct (String.eqb_spec (_id b) (_id a')); [contradiction | auto].
Qed.

Lemma byId_replace_other (id' : string) (a' : application) (d : Store.db) :
  id' <> _id a' ->
  Store.byId id' (Store.replace a' d) = Store.byId id' d.
Proof.
  intros Hne. unfold Store.byId, Store.replace. cbn [Store.docs].
  induction (Store.docs d) as [|b l IH]; simpl; [reflexivity|].
  destruct (String.eqb_spec (_id b) (_id a')) as [Heq|Hneq].
  - destruct (String.eqb_spec (_id a') id'); [congruence|].
    destruct (String.eqb_spec (_id b) id'); [congruence | exact IH].
  - destruct (String.eqb_spec (_id b) id'); [reflexivity | exact IH].
Qed.

(** X20: on the registry, an application that the delete route has
    removed is gone: the get route and a second delete answer with
    status 400 for its id, the dispatcher's lookup by prefix never gives
    it, and the applications with other ids are read as before. *)
Theorem delete_then_gone (id : string) (d d' : Store.db) (m : Routes.successMessage) :
  Routes.deleteApplication Registry.queries (Some id) d = (Json m, d') ->
  Routes.getApplication Registry.queries (Some id) d'
  = NextErr (Error "No application with the given application id exists." (Some 400))
  /\ Routes.deleteApplication Registry.queries (Some id) d'
     = (NextErr (Error "No application with the given application id exists."
                       (Some 400)), d')
  /\ (forall p a, Registry.findByPrefix p d' = Some a -> _id a <> id)
  /\ (forall id', id' <> id ->
      Routes.getApplication Registry.queries (Some id') d'
      = Routes.getApplication Registry.queries (Some id') d).
Proof.
  unfold Routes.deleteApplication, Routes.getApplication. rewrite !orString_id.
  simpl findOneAndRemove. simpl findById.
  unfold Registry.findOneAndRemove, Registry.findById.
  destruct (Store.byId id d) as [a|] eqn:Hfind; [|discriminate].
  intros Heq. assert (Hd : d' = Registry.without id d) by congruence.
  subst d'. clear Heq. rewrite byId_without. repeat split.
  - intros p b Hb Heq. unfold Registry.findByPrefix, Registry.without in Hb.
    cbn [Store.docs] in Hb. apply find_some in Hb as [Hin _].
    apply filter_In in Hin as [_ Hkeep]. rewrite Heq, String.eqb_refl in Hkeep.
    discriminate.
  - intros id' Hne. rewrite orString_id, byId_without_other by exact Hne.
    reflexivity.
Qed.

(** X21: on the registry, an update that answers can be read back: the
    get route, asked for the same id, answers with the application the
    update answered with, and the applications with other ids are read as
    before. *)
Theorem put_then_get (id : string) (body : Applications.putBody)
    (d d' : Store.db) (a' : application) :
  Applications.put (Store.model isURL) (Some id) body d = (Json a', d') ->
  _id a' = id
  /\ Routes.getApplication Registry.queries (Some id) d' = Json a'
  /\ (forall id', id' <> id ->
      Routes.getApplication Registry.queries (Some id') d'
      = Routes.getApplication Registry.queries (Some id') d).
Proof.
  unfold Applications.put. destruct (Js.truthy (Some id)); simpl negb; cbv iota;
    [|discriminate].
  simpl findOneAndUpdate. unfold Store.findOneAndUpdate. simpl default.
  destruct (_ && _); [discriminate|].
  destruct (Store.byId id d) as [a|] eqn:Hfind; [|discriminate].
  destruct (Store.conflicts id _ d); [discriminate|]. simpl.
  intros [= <- <-].
  assert (Hid : _id a = id).
  { unfold Store.byId in Hfind. apply find_some in Hfind as [_ Heq].
    now apply String.eqb_eq in Heq. }
  split; [exact Hid | split].
  - unfold Routes.getApplication. rewrite orString_id. simpl findById.
    unfold Registry.findById.
    now rewrite (byId_replace id a (Store.applySet (Applications.update body) a)
                   d Hfind Hid).
  - intros id' Hne. unfold Routes.getApplication. rewrite orString_id.
    simpl findById. unfold Registry.findById.
    rewrite byId_replace_other; [reflexivity|]. simpl. congruence.
Qed.

End RegistryRoundTrips.

(** ** The routes on the scenario of the test suite *)

Lemma post_error_is_400_witness :
  status (Error "Prefix required!" (Some 400)) = Some 400.
Proof.
  apply (post_error_is_400 (Store.model Sample.anyHost) Rbac.acl
           (Applications.PostBody None (Some "test-host") None)
           Sample.emptyDb Sample.emptyDb Sample.emptyAcl Sample.emptyAcl).
  vm_compute. reflexivity.
Defined.

Lemma post_grants_after_create_witness :
  Sample.emptyDb = Sample.emptyDb /\ Sample.emptyAcl = Sample.emptyAcl
  /\ exists e, NextErr (A := Applications.summary) (Error "Host required!" (Some 400))
               = NextErr e.
Proof.
  destruct (post_grants_after_create (Store.model Sample.anyHost) Rbac.acl
              (Applications.PostBody (Some "test-prefix") None None)
              Sample.emptyDb Sample.emptyDb Sample.emptyAcl Sample.emptyAcl
              (NextErr (Error "Host required!" (Some 400)))) as [H _].
  - vm_compute. reflexivity.
  - apply H. vm_compute. discriminate.
Defined.

Lemma failed_roles_keep_application_witness :
  Applications.post (Store.model Sample.anyHost) Failing.acl Failing.body
    Sample.emptyDb tt
  = (NextErr (Error "acl backend unavailable" (Some 400)), Scenario.testDb, tt)
  /\ Applications.post (Store.model Sample.anyHost) Failing.acl Failing.body
       Scenario.testDb tt
     = (NextErr (Error "E11000 duplicate key error" (Some 400)), Scenario.testDb, tt).
Proof.
  destruct (failed_roles_keep_application Sample.anyHost Failing.acl Failing.body
              Sample.emptyDb Scenario.testDb tt tt Scenario.testApp
              (Error "acl backend unavailable" (Some 500)))
    as (H1 & _ & _ & H2).
  - vm_compute. reflexivity.
  - vm_compute. reflexivity.
  - vm_compute. reflexivity.
  - vm_compute. reflexivity.
  - split; [exact H1 | exact H2].
Defined.

Lemma put_ignores_empty_fields_witness :
  Applications.put (Store.model Sample.noUnderscore) (Some "app-1")
    (Applications.PutBody (Some "") (Some "new_prefix") None) Sample.adminDb
  = Applications.put (Store.model Sample.noUnderscore) (Some "app-1")
      (Applications.PutBody None (Some "new_prefix") (Some "")) Sample.adminDb.
Proof.
  apply (put_ignores_empty_fields (Store.model Sample.noUnderscore) (Some "app-1")
           (Applications.PutBody (Some "") (Some "new_prefix") None)
           (Applications.PutBody None (Some "new_prefix") (Some ""))
           Sample.adminDb); reflexivity.
Defined.

Lemma put_error_statuses_witness :
  Some 400 = Some 400 \/ Some 400 = Some 403.
Proof.
  apply (put_error_statuses (Store.model Sample.noUnderscore) (Some "app-9")
           (Applications.PutBody (Some "Gleaner App. (test)") None None)
           Sample.adminDb Sample.adminDb
           (Error "No application with the given application id exists." (Some 400))).
  vm_compute. reflexivity.
Defined.

Lemma register_then_get_witness :
  exists p h,
    Applications.body_prefix Sample.gleanerBody = Some p
    /\ Applications.body_host Sample.gleanerBody = Some h
    /\ Routes.getApplication Registry.queries (Some "app-0") Scenario.db
       = Json (Application "app-0" None p (Some h) "2015-07-06T09:03:52.636Z")
    /\ Registry.allocated Scenario.db = true.
Proof.
  apply (register_then_get Sample.anyHost Rbac.acl Sample.gleanerBody
           Sample.emptyDb Scenario.db Sample.emptyAcl Scenario.acl Scenario.summary).
  - vm_compute. reflexivity.
  - vm_compute. reflexivity.
Defined.

Lemma register_then_dispatch_witness :
  exists a,
    Registry.findByPrefix "gleaner" Scenario.db = Some a /\ _id a = "app-0"
    /\ Proxy.resolves (Sample.live true) (Sample.get "/route1" None)
                      "gleaner" a "localhost:3309"
    /\ (Proxy.decision (Sample.live true) (Sample.get "/route1" None) "gleaner"
        = inr true ->
        Proxy.forwarded (Proxy.handler (Sample.live true) (Sample.get "/route1" None))
        = [Proxy.normalizeHost "localhost:3309" ++ "/route1" ++ ""]).
Proof.
  apply (register_then_dispatch Sample.anyHost Rbac.acl Sample.gleanerBody
           Sample.emptyDb Scenario.db Sample.emptyAcl Scenario.acl Scenario.summary
           "gleaner" "localhost:3309" (Sample.live true) (Sample.get "/route1" None)).
  - vm_compute. reflexivity.
  - vm_compute. reflexivity.
  - reflexivity.
  - reflexivity.
  - vm_compute. reflexivity.
  - reflexivity.
Defined.

Lemma register_twice_is_400_witness :
  Applications.post (Store.model Sample.anyHost) Rbac.acl
    (Applications.PostBody (Some "gleaner") (Some "otherhost:3310") None)
    Scenario.db Scenario.acl
  = (NextErr (Error "E11000 duplicate key error" (Some 400)), Scenario.db, Scenario.acl).
Proof.
  apply (register_twice_is_400 Sample.anyHost Rbac.acl Sample.gleanerBody
           (Applications.PostBody (Some "gleaner") (Some "otherhost:3310") None)
           Sample.emptyDb Scenario.db Sample.emptyAcl Scenario.acl Scenario.acl
           Scenario.summary).
  - vm_compute. reflexivity.
  - vm_compute. reflexivity.
  - vm_compute. reflexivity.
  - left. reflexivity.
Defined.

Lemma delete_then_gone_witness :
  Routes.getApplication Registry.queries (Some "app-2")
    (Registry.without "app-2" Sample.adminDb)
  = NextErr (Error "No application with the given application id exists." (Some 400)).
Proof.
  apply (delete_then_gone "app-2" Sample.adminDb
           (Registry.without "app-2" Sample.adminDb) Routes.DefaultSuccessMessage).
  vm_compute. reflexivity.
Defined.

Lemma put_then_get_witness :
  Routes.getApplication Registry.queries (Some "app-1")
    (Store.replace Scenario.renamed Sample.adminDb)
  = Json Scenario.renamed.
Proof.
  apply (put_then_get Sample.noUnderscore "app-1"
           (Applications.PutBody None (Some "new_prefix") (Some "http://myurl22.com"))
           Sample.adminDb (Store.replace Scenario.renamed Sample.adminDb)
           Scenario.renamed).
  vm_compute. reflexivity.
Defined.
